(** * Pawnshop back office: loan ledger, access control and deletion guards

    A shallow embedding of the request handlers of [backend/app/routers]
    (loans, applications, customers, inventory) and of the permission
    check of [backend/app/auth/permissions.py].

    Conventions of the embedding.
    - The rows are those of the mapped classes of models/operations.py,
      which the routers import and from which main.py creates the
      tables.  The routers of loans.py address loans and payments through
      names of schemas/loans.py that these classes do not have
      ([loan_amount], [loan_code], [updated_at] of a payment); what Python
      and the ORM do then (an [AttributeError], a [TypeError]) is part of
      the embedding.
    - Money and rates are modelled as exact rationals [Q].
    - A [date] is its proleptic ordinal, in [Z], and [timedelta(days=n)]
      the integer [n].  The DateTime columns [start_date] and [due_date]
      of a loan are counted in days as well, the time of day left out:
      the handlers assign dates to them and add whole days, and SQL
      compares them with dates.  Other datetimes are instants in [Z].
    - A table is a finite map from the primary key to the row, except
      [payments], an insertion-ordered list of [(id, row)].
    - The session is created with [autoflush=False] (database.py): what
      [db.add] registers stays pending, invisible to queries, until
      [db.commit].  A commit is taken to succeed: what the database
      itself may refuse at a flush is outside the embedding. *)

From Stdlib Require Import ZArith QArith String Ascii List Lia Bool DecimalString.
From stdpp Require Import gmap strings list fin_maps sorting.
Import ListNotations.
Local Open Scope Z_scope.

Abbreviation date := Z (only parsing).
Abbreviation datetime := Z (only parsing).

(** ** Enumerations *)

Module LoanStatusEnum.
Inductive t := PENDING | ACTIVE | OVERDUE | COMPLETED | DEFAULTED | EXTENDED | CANCELLED.

Definition value (s : t) : string :=
  match s with
  | PENDING => "pending" | ACTIVE => "active" | OVERDUE => "overdue"
  | COMPLETED => "completed" | DEFAULTED => "defaulted"
  | EXTENDED => "extended" | CANCELLED => "cancelled"
  end.

#[global] Instance eq_dec : EqDecision t.
Proof. solve_decision. Defined.
End LoanStatusEnum.

Module ItemStatus.
Inductive t := PAWNED | REDEEMED | DEFAULTED | FOR_SALE | SOLD | DAMAGED | LOST.

Definition value (s : t) : string :=
  match s with
  | PAWNED => "pawned" | REDEEMED => "redeemed" | DEFAULTED => "defaulted"
  | FOR_SALE => "for_sale" | SOLD => "sold" | DAMAGED => "damaged" | LOST => "lost"
  end.

Definition name (s : t) : string :=
  match s with
  | PAWNED => "PAWNED" | REDEEMED => "REDEEMED" | DEFAULTED => "DEFAULTED"
  | FOR_SALE => "FOR_SALE" | SOLD => "SOLD" | DAMAGED => "DAMAGED" | LOST => "LOST"
  end.

(** [str(member)], also what an f-string prints: the class is a plain
    [enum.Enum]. *)
Definition str (s : t) : string := "ItemStatus." +:+ name s.

(** [member != s] for a string [s]: a member of a plain [enum.Enum]
    equals no string, not even its own value. *)
Definition ne_str (member : t) (s : string) : bool := true.

#[global] Instance eq_dec : EqDecision t.
Proof. solve_decision. Defined.
End ItemStatus.

Module PaymentMethodEnum.
Inductive t := CASH | CREDIT_CARD | DEBIT_CARD | BANK_TRANSFER | MOBILE_PAYMENT | CHECK | OTHER.
End PaymentMethodEnum.

Module ApplicationStatus.
Inductive t := PENDING | APPROVED | REJECTED | CANCELLED.

#[global] Instance eq_dec : EqDecision t.
Proof. solve_decision. Defined.
End ApplicationStatus.

(** ** Rows *)

Module Loan.
(** The columns of [Loan] that a handler reads or assigns.  [item_id] is
    a nullable foreign key, set to NULL when the item is deleted;
    [status] is a string column in which the handlers store the values of
    [LoanStatusEnum].  The mapped class has [principal_amount] and
    [loan_number]; it has no [loan_amount], [loan_code] nor
    [collateral_description]. *)
Record t := mk {
  loan_number : string;
  customer_id : Z;
  item_id : option Z;
  principal_amount : Q;
  interest_rate : Q;
  term_days : Z;
  start_date : datetime;
  due_date : datetime;
  status : LoanStatusEnum.t;
  notes : option string;
  created_at : datetime;
  updated_at : option datetime;
  extension_count : Z
}.

Definition set_item_id (v : option Z) (l : t) : t :=
  mk (loan_number l) (customer_id l) v (principal_amount l) (interest_rate l) (term_days l)
     (start_date l) (due_date l) (status l) (notes l)
     (created_at l) (updated_at l) (extension_count l).
Definition set_interest_rate (v : Q) (l : t) : t :=
  mk (loan_number l) (customer_id l) (item_id l) (principal_amount l) v (term_days l)
     (start_date l) (due_date l) (status l) (notes l)
     (created_at l) (updated_at l) (extension_count l).
Definition set_term_days (v : Z) (l : t) : t :=
  mk (loan_number l) (customer_id l) (item_id l) (principal_amount l) (interest_rate l) v
     (start_date l) (due_date l) (status l) (notes l)
     (created_at l) (updated_at l) (extension_count l).
Definition set_start_date (v : datetime) (l : t) : t :=
  mk (loan_number l) (customer_id l) (item_id l) (principal_amount l) (interest_rate l)
     (term_days l) v (due_date l) (status l) (notes l)
     (created_at l) (updated_at l) (extension_count l).
Definition set_due_date (v : datetime) (l : t) : t :=
  mk (loan_number l) (customer_id l) (item_id l) (principal_amount l) (interest_rate l)
     (term_days l) (start_date l) v (status l) (notes l)
     (created_at l) (updated_at l) (extension_count l).
Definition set_status (v : LoanStatusEnum.t) (l : t) : t :=
  mk (loan_number l) (customer_id l) (item_id l) (principal_amount l) (interest_rate l)
     (term_days l) (start_date l) (due_date l) v (notes l)
     (created_at l) (updated_at l) (extension_count l).
Definition set_notes (v : option string) (l : t) : t :=
  mk (loan_number l) (customer_id l) (item_id l) (principal_amount l) (interest_rate l)
     (term_days l) (start_date l) (due_date l) (status l) v
     (created_at l) (updated_at l) (extension_count l).
Definition set_updated_at (v : option datetime) (l : t) : t :=
  mk (loan_number l) (customer_id l) (item_id l) (principal_amount l) (interest_rate l)
     (term_days l) (start_date l) (due_date l) (status l) (notes l)
     (created_at l) v (extension_count l).
End Loan.

Module Item.
(** The columns the handlers read or write, and the descriptive ones; the
    timestamps of an item are kept by the database and are not modelled.
    [status] is an Enum column: a loaded item has a member of
    [ItemStatus].  The handlers of loans.py assign the string value of a
    member to it, which is recorded here as that member. *)
Record t := mk {
  item_code : string;
  name : string;
  description : string;
  status : ItemStatus.t;
  appraised_value : Q;
  loan_value : Q;
  notes : option string
}.

Definition set_status (v : ItemStatus.t) (i : t) : t :=
  mk (item_code i) (name i) (description i) v (appraised_value i) (loan_value i) (notes i).
End Item.

Module Payment.
(** The mapped class has no [updated_at]. *)
Record t := mk {
  loan_id : Z;
  amount : Q;
  payment_date : datetime;
  payment_method : PaymentMethodEnum.t;
  reference_number : option string;
  notes : option string;
  created_at : datetime
}.
End Payment.

Module Customer.
Record t := mk {
  customer_code : string;
  first_name : string;
  last_name : string;
  email : string;
  phone : string;
  address : string;
  is_active : bool;
  credit_score : option Z;
  notes : option string;
  created_at : datetime;
  updated_at : option datetime
}.

Definition set_is_active (v : bool) (c : t) : t :=
  mk (customer_code c) (first_name c) (last_name c) (email c) (phone c) (address c)
     v (credit_score c) (notes c) (created_at c) (updated_at c).
Definition set_updated_at (v : option datetime) (c : t) : t :=
  mk (customer_code c) (first_name c) (last_name c) (email c) (phone c) (address c)
     (is_active c) (credit_score c) (notes c) (created_at c) v.
End Customer.

Module Application.
Record t := mk {
  application_number : string;
  customer_id : Z;
  branch_id : Z;
  item_description : string;
  estimated_value : Q;
  loan_amount : Q;
  interest_rate : Q;
  term_months : Z;
  status : ApplicationStatus.t;
  notes : option string;
  processed_by_id : option Z;
  processed_at : option datetime;
  rejection_reason : option string
}.

Definition set_status (v : ApplicationStatus.t) (a : t) : t :=
  mk (application_number a) (customer_id a) (branch_id a) (item_description a)
     (estimated_value a) (loan_amount a) (interest_rate a) (term_months a)
     v (notes a) (processed_by_id a) (processed_at a) (rejection_reason a).
Definition set_notes (v : option string) (a : t) : t :=
  mk (application_number a) (customer_id a) (branch_id a) (item_description a)
     (estimated_value a) (loan_amount a) (interest_rate a) (term_months a)
     (status a) v (processed_by_id a) (processed_at a) (rejection_reason a).
Definition set_processed_by_id (v : option Z) (a : t) : t :=
  mk (application_number a) (customer_id a) (branch_id a) (item_description a)
     (estimated_value a) (loan_amount a) (interest_rate a) (term_months a)
     (status a) (notes a) v (processed_at a) (rejection_reason a).
Definition set_processed_at (v : option datetime) (a : t) : t :=
  mk (application_number a) (customer_id a) (branch_id a) (item_description a)
     (estimated_value a) (loan_amount a) (interest_rate a) (term_months a)
     (status a) (notes a) (processed_by_id a) v (rejection_reason a).
Definition set_rejection_reason (v : option string) (a : t) : t :=
  mk (application_number a) (customer_id a) (branch_id a) (item_description a)
     (estimated_value a) (loan_amount a) (interest_rate a) (term_months a)
     (status a) (notes a) (processed_by_id a) (processed_at a) v.
End Application.

(** ** The database and the session *)

Record Db := mkDb {
  loans : gmap Z Loan.t;
  items : gmap Z Item.t;
  payments : list (Z * Payment.t);
  payments_id_seq : Z;
  customers : gmap Z Customer.t;
  applications : gmap Z Application.t
}.

(** What the unit of work holds between [db.add]/[db.delete] and the
    flush of [db.commit]; a deleted item comes with the time [func.now()]
    has at that flush. *)
Inductive Pending :=
| NewPayment (p : Payment.t)
| DirtyLoan (id : Z) (l : Loan.t)
| DirtyItem (id : Z) (i : Item.t)
| DirtyCustomer (id : Z) (c : Customer.t)
| DirtyApplication (id : Z) (a : Application.t)
| DeletedItem (id : Z) (now : datetime).

Record Session := mkSession {
  store : Db;
  pending : list Pending
}.

(** The loan an item has through the relationship [Item.loan].  The
    relationship is scalar ([uselist=False]): it loads the first row of
    [loans] whose [item_id] is the key of the item. *)
Definition item_loan (db : Db) (item_id : Z) : option (Z * Loan.t) :=
  head (filter (fun r => Loan.item_id r.2 = Some item_id) (map_to_list (loans db))).

(** [Item.loan] has no delete cascade: when the item is deleted, the
    flush sets the foreign key of that loan to NULL, in an UPDATE that
    also writes [updated_at] ([onupdate=func.now()]). *)
Definition orphaned (now : datetime) (l : Loan.t) : Loan.t :=
  Loan.set_updated_at (Some now) (Loan.set_item_id None l).

Definition flush_one (db : Db) (w : Pending) : Db :=
  match w with
  | NewPayment p =>
      mkDb (loans db) (items db) (payments db ++ [(payments_id_seq db, p)])
           (payments_id_seq db + 1) (customers db) (applications db)
  | DirtyLoan id l =>
      mkDb (<[id := l]> (loans db)) (items db) (payments db)
           (payments_id_seq db) (customers db) (applications db)
  | DirtyItem id i =>
      mkDb (loans db) (<[id := i]> (items db)) (payments db)
           (payments_id_seq db) (customers db) (applications db)
  | DirtyCustomer id c =>
      mkDb (loans db) (items db) (payments db)
           (payments_id_seq db) (<[id := c]> (customers db)) (applications db)
  | DirtyApplication id a =>
      mkDb (loans db) (items db) (payments db)
           (payments_id_seq db) (customers db) (<[id := a]> (applications db))
  | DeletedItem id now =>
      mkDb (match item_loan db id with
            | Some (k, l) => <[k := orphaned now l]> (loans db)
            | None => loans db
            end)
           (delete id (items db)) (payments db)
           (payments_id_seq db) (customers db) (applications db)
  end.

Definition flush (db : Db) (ws : list Pending) : Db := fold_left flush_one ws db.

(** ** Handlers run in a state and exception monad over the session *)

(** What a handler raises.  The 404 answers are the specification's
    NotFoundError, the 400 answers its InvalidStateError, ValidationError
    and ConflictError, 401 its AuthenticationError and 403 its
    AuthorizationError; a body the schema refuses is answered 422.
    [TypeError] and [AttributeError] are the exceptions of Python; no
    handler catches them, and their messages are not modelled. *)
Inductive Exn :=
| HTTPException (status_code : Z) (detail : string)
| RequestValidationError (msg : string)
| TypeError
| AttributeError.

Definition M (A : Type) : Type := Session -> (Exn + A) * Session.

Definition ret {A} (a : A) : M A := fun s => (inr a, s).
Definition raise {A} (e : Exn) : M A := fun s => (inl e, s).
Definition bind {A B} (m : M A) (k : A -> M B) : M B :=
  fun s => match m s with
           | (inl e, s') => (inl e, s')
           | (inr a, s') => k a s'
           end.

Notation "'let*' x ':=' m 'in' k" := (bind m (fun x => k))
  (at level 10, x pattern, m at level 100, k at level 200).

Definition query {A} (f : Db -> A) : M A := fun s => (inr (f (store s)), s).
Definition db_add (w : Pending) : M unit :=
  fun s => (inr tt, mkSession (store s) (pending s ++ [w])).
Definition db_commit : M unit :=
  fun s => (inr tt, mkSession (flush (store s) (pending s)) []).
Definition when (b : bool) (m : M unit) : M unit := if b then m else ret tt.
Definition or_raise {A} (o : option A) (e : Exn) : M A :=
  match o with Some a => ret a | None => raise e end.

(** [get_db]: a request opens a session on the database and closes it when
    the handler returns or raises; what was not committed is discarded. *)
Definition open (db : Db) : Session := mkSession db [].
Definition run {A} (m : M A) (db : Db) : (Exn + A) * Db :=
  let '(r, s) := m (open db) in (r, store s).

(** A request is refused with [e] when the handler raises [e] and hands
    back the session it was opened with: no pending write, no commit. *)
Definition refused {A} (m : M A) (db : Db) (e : Exn) : Prop :=
  m (open db) = (inl e, open db).

(** Python's [x or 0] on the scalar of a [SUM] query: [None] and a zero
    sum both give the integer [0]. *)
Definition or_0 (o : option Q) : Q :=
  match o with
  | None => 0%Q
  | Some v => if Qeq_bool v 0 then 0%Q else v
  end.

(** [func.sum] over the selected rows: [NULL] when no row is selected. *)
Definition sql_sum (l : list Q) : option Q :=
  match l with
  | [] => None
  | x :: xs => Some (fold_left Qplus xs x)
  end.

Definition str_int (z : Z) : string := NilZero.string_of_int (Z.to_int z).

Definition nl : string := String (ascii_of_nat 10) EmptyString.

(** Truth value of an optional string: [None] and the empty string are
    false. *)
Definition truthy (o : option string) : bool :=
  match o with
  | Some (String _ _) => true
  | _ => false
  end.

(** [o or ""] *)
Definition or_empty (o : option string) : string :=
  if truthy o then default EmptyString o else EmptyString.

(** ** Request bodies (schemas/loans.py, schemas/operations.py) *)

Module PaymentCreate.
Record t := mk {
  amount : Q;
  payment_date : datetime;
  payment_method : PaymentMethodEnum.t;
  reference_number : option string;
  notes : option string
}.
End PaymentCreate.

Module LoanUpdate.
(** [None] is a field the request left unset ([exclude_unset]); a set
    numeric, date or status field carries a value. *)
Record t := mk {
  loan_amount : option Q;
  interest_rate : option Q;
  term_days : option Z;
  start_date : option date;
  due_date : option date;
  status : option LoanStatusEnum.t;
  collateral_description : option (option string);
  notes : option (option string)
}.
End LoanUpdate.

Module LoanExtend.
Record t := mk {
  additional_days : Z;
  payment : option PaymentCreate.t;
  notes : option string
}.
End LoanExtend.

Module LoanRedeem.
Record t := mk {
  payment : PaymentCreate.t;
  notes : option string
}.
End LoanRedeem.

Module LoanDefault.
Record t := mk {
  default_date : date;
  reason : option string;
  notes : option string
}.
End LoanDefault.

Module ApplicationUpdate.
(** [None] is an unset field; [rejection_reason] and [notes] may also be
    set to null. *)
Record t := mk {
  status : option ApplicationStatus.t;
  notes : option (option string);
  rejection_reason : option (option string)
}.

(** The validator of [rejection_reason]: it runs when the field is given,
    after [status] was validated. *)
Definition validate_rejection_reason (body : t) : Exn + t :=
  match rejection_reason body with
  | Some v =>
      if bool_decide (status body = Some ApplicationStatus.REJECTED) && negb (truthy v)
      then inl (RequestValidationError
                  "Rejection reason is required when rejecting an application")
      else inr body
  | None => inr body
  end.
End ApplicationUpdate.

Module Role.
Record t := mk { name : string }.
End Role.

Module User.
Record t := mk { id : Z; role : option Role.t }.
End User.

Record LoanDetails := mkLoanDetails {
  total_paid : Q;
  remaining_balance : Q;
  is_overdue : bool;
  days_remaining : Z;
  days_overdue : Z
}.

(** ** auth/permissions.py *)

Module Permission.
Inductive t :=
| VIEW_USERS | MANAGE_USERS
| VIEW_CUSTOMERS | MANAGE_CUSTOMERS
| VIEW_LOANS | CREATE_LOANS | APPROVE_LOANS | MANAGE_LOANS
| VIEW_INVENTORY | MANAGE_INVENTORY
| VIEW_TRANSACTIONS | MANAGE_TRANSACTIONS
| VIEW_REPORTS | MANAGE_REPORTS
| VIEW_BRANCHES | MANAGE_BRANCHES.

Definition value (p : t) : string :=
  match p with
  | VIEW_USERS => "view_users" | MANAGE_USERS => "manage_users"
  | VIEW_CUSTOMERS => "view_customers" | MANAGE_CUSTOMERS => "manage_customers"
  | VIEW_LOANS => "view_loans" | CREATE_LOANS => "create_loans"
  | APPROVE_LOANS => "approve_loans" | MANAGE_LOANS => "manage_loans"
  | VIEW_INVENTORY => "view_inventory" | MANAGE_INVENTORY => "manage_inventory"
  | VIEW_TRANSACTIONS => "view_transactions" | MANAGE_TRANSACTIONS => "manage_transactions"
  | VIEW_REPORTS => "view_reports" | MANAGE_REPORTS => "manage_reports"
  | VIEW_BRANCHES => "view_branches" | MANAGE_BRANCHES => "manage_branches"
  end.

(** The members in definition order, as iterating the enum yields them. *)
Definition members : list t :=
  [VIEW_USERS; MANAGE_USERS; VIEW_CUSTOMERS; MANAGE_CUSTOMERS;
   VIEW_LOANS; CREATE_LOANS; APPROVE_LOANS; MANAGE_LOANS;
   VIEW_INVENTORY; MANAGE_INVENTORY; VIEW_TRANSACTIONS; MANAGE_TRANSACTIONS;
   VIEW_REPORTS; MANAGE_REPORTS; VIEW_BRANCHES; MANAGE_BRANCHES].

#[global] Instance eq_dec : EqDecision t.
Proof. solve_decision. Defined.
End Permission.

(** Role definitions with their permissions *)
Definition ROLE_PERMISSIONS : gmap string (list string) :=
  list_to_map
    [("admin", map Permission.value Permission.members);
     ("manager",
       map Permission.value
         [Permission.VIEW_USERS; Permission.VIEW_CUSTOMERS; Permission.MANAGE_CUSTOMERS;
          Permission.VIEW_LOANS; Permission.CREATE_LOANS; Permission.APPROVE_LOANS;
          Permission.VIEW_INVENTORY; Permission.MANAGE_INVENTORY;
          Permission.VIEW_TRANSACTIONS; Permission.MANAGE_TRANSACTIONS;
          Permission.VIEW_REPORTS; Permission.VIEW_BRANCHES]);
     ("staff",
       map Permission.value
         [Permission.VIEW_CUSTOMERS; Permission.VIEW_LOANS; Permission.CREATE_LOANS;
          Permission.VIEW_INVENTORY; Permission.VIEW_TRANSACTIONS;
          Permission.MANAGE_TRANSACTIONS])].

(** [str.lower] on the ASCII letters.  The keys of the table are ASCII
    without the letter k, so a name holding any other character is no key
    after lowercasing, here as in Python. *)
Definition lower_ascii (c : ascii) : ascii :=
  let n := nat_of_ascii c in
  if (Nat.leb 65 n && Nat.leb n 90)%bool then ascii_of_nat (n + 32) else c.

Fixpoint lower (s : string) : string :=
  match s with
  | EmptyString => EmptyString
  | String c r => String (lower_ascii c) (lower r)
  end.

Definition missing_permission (permission : Permission.t) : Exn :=
  HTTPException 403 ("Missing required permission: " +:+ Permission.value permission).

(** The loop of the wrapper over the required permissions. *)
Fixpoint check_permissions (user_permissions : list string)
    (required_permissions : list Permission.t) : Exn + unit :=
  match required_permissions with
  | [] => inr tt
  | permission :: rest =>
      if bool_decide (Permission.value permission ∈ user_permissions)
      then check_permissions user_permissions rest
      else inl (missing_permission permission)
  end.

(** [user.role.name.lower() if user.role else None] *)
Definition user_role (user : User.t) : option string :=
  (fun r => lower (Role.name r)) <$> User.role user.

(** The list of the [staff] row, spelled out. *)
Definition staff_permissions : list string :=
  ["view_customers"; "view_loans"; "create_loans"; "view_inventory";
   "view_transactions"; "manage_transactions"].

(** The decorated handler: [func] is the wrapped coroutine, called with the
    user found under [current_user]. *)
Definition has_permission {A} (required_permissions : list Permission.t)
    (func : User.t -> Exn + A) (current_user : option User.t) : Exn + A :=
  match current_user with
  | None => inl (HTTPException 401 "Not authenticated")
  | Some user =>
      match user_role user with
      | Some (String c r as user_role) =>
          match ROLE_PERMISSIONS !! user_role with
          | Some user_permissions =>
              match check_permissions user_permissions required_permissions with
              | inl e => inl e
              | inr _ => func user
              end
          | None => inl (HTTPException 403 "Invalid role")
          end
      | _ => inl (HTTPException 403 "Invalid role")
      end
  end.

(** ** Further request bodies and answers *)

Module LoanCreate.
Record t := mk {
  customer_id : Z;
  item_id : Z;
  loan_amount : Q;
  interest_rate : Q;
  term_days : Z;
  start_date : date;
  due_date : date;
  status : LoanStatusEnum.t;
  collateral_description : option string;
  notes : option string;
  initial_payment : option PaymentCreate.t
}.
End LoanCreate.

(** The answer of [read_loan]; the category of the item is not a column
    of [Item.t] and is left out. *)
Record LoanWithDetails := mkLoanWithDetails {
  lwd_loan : Loan.t;
  lwd_details : LoanDetails;
  lwd_customer_name : string;
  lwd_customer_phone : string;
  lwd_item_name : string;
  lwd_payments : list (Z * Payment.t)
}.

(** A request to one of the handlers that write a loan. *)
Inductive LoanRequest :=
| PutLoan (loan_id : Z) (loan_in : LoanUpdate.t)
| PostPayment (loan_id : Z) (payment_in : PaymentCreate.t)
| PutExtend (loan_id : Z) (extension_in : LoanExtend.t)
| PutRedeem (loan_id : Z) (redemption_in : LoanRedeem.t)
| PutDefault (loan_id : Z) (default_in : LoanDefault.t).

(** [a] is listed before [b] when it is not earlier. *)
Definition later_first (a b : Z * Payment.t) : Prop :=
  Payment.payment_date b.2 <= Payment.payment_date a.2.

#[global] Instance later_first_dec : RelDecision later_first.
Proof. intros a b. unfold later_first. apply _. Defined.

(** [order_by(Loan.created_at.desc())] *)
Definition newest_first (a b : Z * Loan.t) : Prop :=
  Loan.created_at b.2 <= Loan.created_at a.2.

#[global] Instance newest_first_dec : RelDecision newest_first.
Proof. intros a b. unfold newest_first. apply _. Defined.

(** [calculate_due_date] of routers/loans.py *)
Definition calculate_due_date (start_date : date) (term_days : Z) : date :=
  start_date + term_days.

Module CustomerUpdate.
(** The fields of the schema that are columns of [Customer.t]; [None] is
    an unset field.  A field of a column that [Customer.t] holds as a
    string sent as null is not represented. *)
Record t := mk {
  first_name : option string;
  last_name : option string;
  email : option string;
  phone : option string;
  address : option string;
  notes : option (option string);
  is_active : option bool
}.
End CustomerUpdate.

(** [setattr] of every set field of the update on the customer. *)
Definition customer_update_fields (customer_in : CustomerUpdate.t) (c : Customer.t)
    : Customer.t :=
  Customer.mk (Customer.customer_code c)
    (default (Customer.first_name c) (CustomerUpdate.first_name customer_in))
    (default (Customer.last_name c) (CustomerUpdate.last_name customer_in))
    (default (Customer.email c) (CustomerUpdate.email customer_in))
    (default (Customer.phone c) (CustomerUpdate.phone customer_in))
    (default (Customer.address c) (CustomerUpdate.address customer_in))
    (default (Customer.is_active c) (CustomerUpdate.is_active customer_in))
    (Customer.credit_score c)
    (default (Customer.notes c) (CustomerUpdate.notes customer_in))
    (Customer.created_at c) (Customer.updated_at c).

(** No two customers share the value of a column. *)
Definition unique_on (column : Customer.t -> string) (db : Db) : Prop :=
  forall (i j : Z) (ci cj : Customer.t),
    customers db !! i = Some ci -> customers db !! j = Some cj ->
    column ci = column cj -> i = j.

(** [db.delete(row)] directly followed by [db.commit()]: the unit of work
    stages inserts and updates, so a deletion is applied to the store
    with the flush of the commit that follows it. *)
Definition db_delete_commit (remove : Db -> Db) : M unit :=
  fun s => (inr tt, mkSession (remove (flush (store s) (pending s))) []).


Definition remove_payment (id : Z) (db : Db) : Db :=
  mkDb (loans db) (items db) (filter (fun r => r.1 <> id) (payments db))
       (payments_id_seq db) (customers db) (applications db).



(** What an application becomes under an update ([setattr] of the keys
    of [update_data], the processing stamps among them when the status
    changes). *)
Definition updated_application (utcnow : datetime) (update : ApplicationUpdate.t)
    (current_user : User.t) (application : Application.t) : Application.t :=
  let status_changed :=
    match ApplicationUpdate.status update with
    | Some st => bool_decide (st <> Application.status application)
    | None => false
    end in
  let app := application in
  let app := from_option (fun v => Application.set_status v app) app
               (ApplicationUpdate.status update) in
  let app := from_option (fun v => Application.set_notes v app) app
               (ApplicationUpdate.notes update) in
  let app := from_option (fun v => Application.set_rejection_reason v app) app
               (ApplicationUpdate.rejection_reason update) in
  if status_changed
  then Application.set_processed_at (Some utcnow)
         (Application.set_processed_by_id (Some (User.id current_user)) app)
  else app.

(** routers/auth.py: the permissions listed for the role of a user in the
    answers of the login and of the profile,
    [ROLE_PERMISSIONS.get(user.role.name.lower(), [])]; no list for a user
    without a role. *)
Definition listed_permissions (user : User.t) : option (list string) :=
  (fun r => default [] (ROLE_PERMISSIONS !! lower (Role.name r))) <$> User.role user.

(** Whether the check lets the user through to the handler. *)
Definition allowed (required_permissions : list Permission.t) (current_user : option User.t)
    : bool :=
  match has_permission required_permissions (fun _ => inr tt) current_user with
  | inr _ => true
  | inl _ => false
  end.

(** ** Sample data

    One customer, one pawned ring and the loan on it (principal 1000 at
    5 percent, due on day 130), and two applications. *)

Module Sample.
Definition str_date (d : date) : string := "day " +:+ str_int d.
Definition str_float (x : Q) : string :=
  str_int (Qnum x) +:+ "/" +:+ str_int (Zpos (Qden x)).

Definition loan : Loan.t :=
  Loan.mk "LN-0A1B2C3D" 3 (Some 7) 1000 5 30 100 130 LoanStatusEnum.ACTIVE
    None 100 None 0.
Definition ring : Item.t :=
  Item.mk "I-11223344" "ring" "gold ring" ItemStatus.PAWNED 1500 1000 None.
Definition customer : Customer.t :=
  Customer.mk "C-55667788" "Dara" "Sok" "dara@example.org" "012345678" "Phnom Penh"
    true None None 90 None.
Definition pending_application : Application.t :=
  Application.mk "APP-20240315-12345678" 3 1 "Gold ring" 1000 800 5 3
    ApplicationStatus.PENDING None None None None.
Definition rejected_application : Application.t :=
  Application.mk "APP-20240316-87654321" 3 1 "Watch" 500 400 5 3
    ApplicationStatus.REJECTED None (Some 9) (Some 110) (Some "No proof of ownership").

(** The database with the loan in a given status. *)
Definition db (st : LoanStatusEnum.t) : Db :=
  mkDb {[ 1 := Loan.set_status st loan ]} {[ 7 := ring ]} [] 1
       {[ 3 := customer ]}
       {[ 1 := pending_application; 2 := rejected_application ]}.

Definition pay (amount : Q) : PaymentCreate.t :=
  PaymentCreate.mk amount 115 PaymentMethodEnum.CASH None None.

Definition staff : User.t := User.mk 2 (Some (Role.mk "Staff")).
Definition admin : User.t := User.mk 1 (Some (Role.mk "admin")).
End Sample.

(** ** The handlers *)

Section Handlers.

(** [str(d)] of a date, [str(x)] of a float, the clock of the request,
    [date.today()] and [datetime.utcnow()], and the clock of the
    database, [func.now()]. *)
Variable str_date : date -> string.
Variable str_float : Q -> string.
Variable today : date.
Variable utcnow : datetime.
Variable now : datetime.

(** *** routers/loans.py *)

Definition loan_payment_amounts (db : Db) (loan_id : Z) : list Q :=
  map (fun r => Payment.amount r.2)
      (filter (fun r => Payment.loan_id r.2 = loan_id) (payments db)).

(** [Payment(loan_id=..., amount=..., ..., created_at=datetime.utcnow(),
    updated_at=datetime.utcnow())].  The constructor of a mapped class
    raises [TypeError] for a keyword that names no attribute of the
    class, and [Payment] has no [updated_at]: no row is built. *)
Definition new_payment (loan_id : Z) (payment_in : PaymentCreate.t) : M Payment.t :=
  raise TypeError.

(** [loan.loan_amount].  [Loan] maps no column of that name, so an
    instance has the attribute only when [setattr] has put it on the
    object; [attribute] is that value, [None] on an instance as the
    query loads it. *)
Definition getattr_loan_amount (attribute : option Q) : M Q :=
  or_raise attribute AttributeError.

(** [a > b] and [b > a] for a datetime [a] and a date [b]: Python orders
    a datetime and a date in neither direction and raises [TypeError]. *)
Definition datetime_gt_date (a : datetime) (b : date) : M bool := raise TypeError.
Definition date_gt_datetime (b : date) (a : datetime) : M bool := raise TypeError.

(** [loan_amount] is the plain attribute of the instance, see
    [getattr_loan_amount].  (With payments on the loan the sum is a
    [Decimal], and subtracting it from a float raises [TypeError] one
    line before the comparison does.) *)
Definition calculate_loan_details (loan_id : Z) (loan : Loan.t) (loan_amount : option Q)
    : M LoanDetails :=
  (* Calculate total paid *)
  let* total_paid := query (fun db => or_0 (sql_sum (loan_payment_amounts db loan_id))) in
  (* Calculate interest *)
  let* loan_amount := getattr_loan_amount loan_amount in
  let interest_amount := (loan_amount * (Loan.interest_rate loan / 100))%Q in
  (* Calculate remaining balance *)
  let remaining_balance := (loan_amount + interest_amount - total_paid)%Q in
  (* Calculate days remaining and overdue *)
  let* later := datetime_gt_date (Loan.due_date loan) today in
  let days_remaining := if later then Loan.due_date loan - today else 0 in
  let* late := date_gt_datetime today (Loan.due_date loan) in
  let days_overdue := if late then today - Loan.due_date loan else 0 in
  let is_overdue := days_overdue >? 0 in
  ret (mkLoanDetails total_paid remaining_balance is_overdue days_remaining days_overdue).

(** [db.refresh(payment)] after the commit: the row the flush inserted. *)
Definition refresh_payment (payment : Payment.t) : M (Z * Payment.t) :=
  query (fun db => default (payments_id_seq db, payment) (last (payments db))).

(** [db.refresh(loan)] reloads the columns; a plain attribute of the
    object stays. *)
Definition refresh_loan (loan_id : Z) (loan : Loan.t) : M Loan.t :=
  query (fun db => default loan (loans db !! loan_id)).

(** The loan a handler returns: the refreshed row with the computed
    fields set on it. *)
Definition with_details (loan_id : Z) (loan : Loan.t) (loan_amount : option Q)
    : M (Loan.t * LoanDetails) :=
  let* loan_details := calculate_loan_details loan_id loan loan_amount in
  ret (loan, loan_details).

(** [setattr(loan, field, value)] for the fields of the request that are
    columns.  For [loan_amount] and [collateral_description], which
    [Loan] does not map, [setattr] puts a plain attribute on the object
    and nothing reaches the row. *)
Definition update_fields (loan_in : LoanUpdate.t) (loan : Loan.t) : Loan.t :=
  let loan := from_option (fun v => Loan.set_interest_rate v loan) loan (LoanUpdate.interest_rate loan_in) in
  let loan := from_option (fun v => Loan.set_term_days v loan) loan (LoanUpdate.term_days loan_in) in
  let loan := from_option (fun v => Loan.set_start_date v loan) loan (LoanUpdate.start_date loan_in) in
  let loan := from_option (fun v => Loan.set_due_date v loan) loan (LoanUpdate.due_date loan_in) in
  let loan := from_option (fun v => Loan.set_status v loan) loan (LoanUpdate.status loan_in) in
  from_option (fun v => Loan.set_notes v loan) loan (LoanUpdate.notes loan_in).

(** The item of a loan, [db.query(Item).filter(Item.id == loan.item_id).first()],
    with its key; none when [item_id] is NULL. *)
Definition loan_item (db : Db) (loan : Loan.t) : option (Z * Item.t) :=
  Loan.item_id loan ≫= (fun i => (fun item => (i, item)) <$> items db !! i).

Definition update_loan (loan_id : Z) (loan_in : LoanUpdate.t) : M (Loan.t * LoanDetails) :=
  let* row := query (fun db => loans db !! loan_id) in
  let* loan := or_raise row (HTTPException 404 "Loan not found") in
  (* Prevent updating completed or defaulted loans *)
  let* _ := when (bool_decide (Loan.status loan ∈
                    [LoanStatusEnum.COMPLETED; LoanStatusEnum.DEFAULTED]))
              (raise (HTTPException 400
                 ("Cannot update loan with status: " +:+ LoanStatusEnum.value (Loan.status loan)))) in
  (* Update loan data *)
  let loan_amount := LoanUpdate.loan_amount loan_in in
  let loan := update_fields loan_in loan in
  let loan := Loan.set_updated_at (Some utcnow) loan in
  let* _ := db_add (DirtyLoan loan_id loan) in
  let* _ := db_commit in
  let* loan := refresh_loan loan_id loan in
  (* Calculate loan details *)
  with_details loan_id loan loan_amount.

Definition add_payment (loan_id : Z) (payment_in : PaymentCreate.t) : M (Z * Payment.t) :=
  let* row := query (fun db => loans db !! loan_id) in
  let* loan := or_raise row (HTTPException 404 "Loan not found") in
  (* Ensure loan is in a state that can accept payments *)
  let* _ := when (negb (bool_decide (Loan.status loan ∈
                    [LoanStatusEnum.PENDING; LoanStatusEnum.ACTIVE;
                     LoanStatusEnum.OVERDUE; LoanStatusEnum.EXTENDED])))
              (raise (HTTPException 400
                 ("Cannot add payment to loan with status: " +:+ LoanStatusEnum.value (Loan.status loan)))) in
  (* Create payment *)
  let* payment := new_payment loan_id payment_in in
  let* _ := db_add (NewPayment payment) in
  (* Calculate if loan is fully paid *)
  let* loan_details := calculate_loan_details loan_id loan None in
  let total_paid_after_payment :=
    (total_paid loan_details + PaymentCreate.amount payment_in)%Q in
  let* loan_amount := getattr_loan_amount None in
  (* If loan is fully paid, mark as completed *)
  let* _ :=
    if Qle_bool (loan_amount + (loan_amount * Loan.interest_rate loan / 100))
                total_paid_after_payment
    then
      let loan := Loan.set_status LoanStatusEnum.COMPLETED loan in
      let loan := Loan.set_updated_at (Some utcnow) loan in
      let* _ := db_add (DirtyLoan loan_id loan) in
      (* Update item status to redeemed *)
      let* item := query (fun db => loan_item db loan) in
      match item with
      | Some (i, item) => db_add (DirtyItem i (Item.set_status ItemStatus.REDEEMED item))
      | None => ret tt
      end
    else ret tt in
  let* _ := db_commit in
  refresh_payment payment.

Definition extend_loan (loan_id : Z) (extension_in : LoanExtend.t) : M (Loan.t * LoanDetails) :=
  let* row := query (fun db => loans db !! loan_id) in
  let* loan := or_raise row (HTTPException 404 "Loan not found") in
  (* Ensure loan is in a state that can be extended *)
  let* _ := when (negb (bool_decide (Loan.status loan ∈
                    [LoanStatusEnum.ACTIVE; LoanStatusEnum.OVERDUE])))
              (raise (HTTPException 400
                 ("Cannot extend loan with status: " +:+ LoanStatusEnum.value (Loan.status loan)))) in
  (* Add extension payment if provided *)
  let* _ := match LoanExtend.payment extension_in with
            | Some p =>
                let* payment := new_payment loan_id p in
                db_add (NewPayment payment)
            | None => ret tt
            end in
  (* Extend the due date *)
  let loan := Loan.set_due_date (Loan.due_date loan + LoanExtend.additional_days extension_in) loan in
  let loan := Loan.set_term_days (Loan.term_days loan + LoanExtend.additional_days extension_in) loan in
  let loan := Loan.set_status LoanStatusEnum.EXTENDED loan in
  let loan :=
    if truthy (LoanExtend.notes extension_in)
    then Loan.set_notes
           (Some (or_empty (Loan.notes loan) +:+ nl +:+ "Extended on " +:+ str_date today +:+ ": "
                    +:+ or_empty (LoanExtend.notes extension_in))) loan
    else loan in
  let loan := Loan.set_updated_at (Some utcnow) loan in
  let* _ := db_add (DirtyLoan loan_id loan) in
  let* _ := db_commit in
  let* loan := refresh_loan loan_id loan in
  (* Calculate loan details *)
  with_details loan_id loan None.

Definition redeem_loan (loan_id : Z) (redemption_in : LoanRedeem.t) : M (Loan.t * LoanDetails) :=
  let* row := query (fun db => loans db !! loan_id) in
  let* loan := or_raise row (HTTPException 404 "Loan not found") in
  (* Ensure loan is in a state that can be redeemed *)
  let* _ := when (negb (bool_decide (Loan.status loan ∈
                    [LoanStatusEnum.ACTIVE; LoanStatusEnum.OVERDUE; LoanStatusEnum.EXTENDED])))
              (raise (HTTPException 400
                 ("Cannot redeem loan with status: " +:+ LoanStatusEnum.value (Loan.status loan)))) in
  (* Calculate remaining balance *)
  let* loan_details := calculate_loan_details loan_id loan None in
  let remaining := remaining_balance loan_details in
  let amount := PaymentCreate.amount (LoanRedeem.payment redemption_in) in
  (* Verify redemption payment covers the remaining balance *)
  let* _ := when (negb (Qle_bool remaining amount))
              (raise (HTTPException 400
                 ("Redemption payment (" +:+ str_float amount
                    +:+ ") is less than the remaining balance (" +:+ str_float remaining +:+ ")"))) in
  (* Add redemption payment *)
  let* payment := new_payment loan_id (LoanRedeem.payment redemption_in) in
  let* _ := db_add (NewPayment payment) in
  (* Update loan status *)
  let loan := Loan.set_status LoanStatusEnum.COMPLETED loan in
  let loan :=
    if truthy (LoanRedeem.notes redemption_in)
    then Loan.set_notes
           (Some (or_empty (Loan.notes loan) +:+ nl +:+ "Redeemed on " +:+ str_date today +:+ ": "
                    +:+ or_empty (LoanRedeem.notes redemption_in))) loan
    else loan in
  let loan := Loan.set_updated_at (Some utcnow) loan in
  let* _ := db_add (DirtyLoan loan_id loan) in
  (* Update item status to redeemed *)
  let* item := query (fun db => loan_item db loan) in
  let* _ := match item with
            | Some (i, item) => db_add (DirtyItem i (Item.set_status ItemStatus.REDEEMED item))
            | None => ret tt
            end in
  let* _ := db_commit in
  let* loan := refresh_loan loan_id loan in
  (* Recalculate loan details *)
  with_details loan_id loan None.

Definition default_loan (loan_id : Z) (default_in : LoanDefault.t) : M (Loan.t * LoanDetails) :=
  let* row := query (fun db => loans db !! loan_id) in
  let* loan := or_raise row (HTTPException 404 "Loan not found") in
  (* Ensure loan is in a state that can be defaulted *)
  let* _ := when (negb (bool_decide (Loan.status loan ∈
                    [LoanStatusEnum.ACTIVE; LoanStatusEnum.OVERDUE; LoanStatusEnum.EXTENDED])))
              (raise (HTTPException 400
                 ("Cannot default loan with status: " +:+ LoanStatusEnum.value (Loan.status loan)))) in
  (* Update loan status *)
  let loan' := Loan.set_status LoanStatusEnum.DEFAULTED loan in
  let default_notes := "Defaulted on " +:+ str_date (LoanDefault.default_date default_in) in
  let default_notes :=
    if truthy (LoanDefault.reason default_in)
    then default_notes +:+ ", Reason: " +:+ or_empty (LoanDefault.reason default_in)
    else default_notes in
  let default_notes :=
    if truthy (LoanDefault.notes default_in)
    then default_notes +:+ ", Notes: " +:+ or_empty (LoanDefault.notes default_in)
    else default_notes in
  let loan' := Loan.set_notes (Some (or_empty (Loan.notes loan) +:+ nl +:+ default_notes)) loan' in
  let loan' := Loan.set_updated_at (Some utcnow) loan' in
  let* _ := db_add (DirtyLoan loan_id loan') in
  (* Update item status to defaulted *)
  let* item := query (fun db => loan_item db loan') in
  let* _ := match item with
            | Some (i, item) => db_add (DirtyItem i (Item.set_status ItemStatus.DEFAULTED item))
            | None => ret tt
            end in
  let* _ := db_commit in
  let* loan' := refresh_loan loan_id loan' in
  (* Calculate loan details *)
  with_details loan_id loan' None.

(** *** routers/applications.py *)


(** *** routers/customers.py *)

Definition delete_customer (customer_id : Z) : M Customer.t :=
  let* row := query (fun db => customers db !! customer_id) in
  let* customer := or_raise row (HTTPException 404 "Customer not found") in
  (* Check if customer has active loans *)
  let* active_loans :=
    query (fun db =>
      Z.of_nat (length (filter
        (fun r => Loan.customer_id r.2 = customer_id
                  /\ Loan.status r.2 ∈ [LoanStatusEnum.ACTIVE; LoanStatusEnum.OVERDUE])
        (map_to_list (loans db))))) in
  let* _ := when (active_loans >? 0)
              (raise (HTTPException 400
                 ("Cannot delete customer with " +:+ str_int active_loans +:+ " active loans"))) in
  (* Instead of hard delete, mark as inactive *)
  let customer := Customer.set_is_active false customer in
  let customer := Customer.set_updated_at (Some utcnow) customer in
  let* _ := db_add (DirtyCustomer customer_id customer) in
  let* _ := db_commit in
  ret customer.

(** *** routers/inventory.py *)

Definition delete_item (item_id : Z) : M Item.t :=
  let* row := query (fun db => items db !! item_id) in
  let* item := or_raise row (HTTPException 404 "Item not found") in
  (* Check if item is associated with an active loan *)
  let* active_loan :=
    query (fun db =>
      head (filter
        (fun r => Loan.item_id r.2 = Some item_id
                  /\ Loan.status r.2 ∈ [LoanStatusEnum.ACTIVE; LoanStatusEnum.OVERDUE])
        (map_to_list (loans db)))) in
  let* _ := when (bool_decide (is_Some active_loan))
              (raise (HTTPException 400
                 "Cannot delete item that is associated with an active loan")) in
  let* _ := db_add (DeletedItem item_id now) in
  let* _ := db_commit in
  ret item.

(** *** More of routers/loans.py *)

(** [Loan(loan_code=..., customer_id=..., ..., loan_amount=..., ...)]:
    [loan_code] names no attribute of the mapped class, so the
    constructor raises [TypeError]. *)
Definition new_loan (loan_code : string) (loan_in : LoanCreate.t) : M Loan.t :=
  raise TypeError.

(** [create_loan]; the primary key the database hands out at the insert
    and the random code of [generate_loan_code] are given.  [item.status]
    is a member of the [ItemStatus] of models/operations.py, which the
    guard compares with the strings [ItemStatus.PAWNED.value] and
    [ItemStatus.FOR_SALE.value]. *)
Definition create_loan (new_id : Z) (loan_code : string) (loan_in : LoanCreate.t)
    : M (Loan.t * LoanDetails) :=
  (* Check if customer exists *)
  let* customer := query (fun db => customers db !! LoanCreate.customer_id loan_in) in
  let* _ := or_raise customer (HTTPException 404 "Customer not found") in
  (* Check if item exists *)
  let* row := query (fun db => items db !! LoanCreate.item_id loan_in) in
  let* item := or_raise row (HTTPException 404 "Item not found") in
  (* Check if item is available for pawning *)
  let* _ := when (ItemStatus.ne_str (Item.status item) (ItemStatus.value ItemStatus.PAWNED)
                  && ItemStatus.ne_str (Item.status item) (ItemStatus.value ItemStatus.FOR_SALE))
              (raise (HTTPException 400
                 ("Item is not available for loan, current status: "
                    +:+ ItemStatus.str (Item.status item)))) in
  (* Create loan *)
  let* db_loan := new_loan loan_code loan_in in
  let* _ := db_add (DirtyLoan new_id db_loan) in
  let* _ := db_commit in
  let* db_loan := refresh_loan new_id db_loan in
  (* Update item status to pawned *)
  let* _ := db_add (DirtyItem (LoanCreate.item_id loan_in)
                      (Item.set_status ItemStatus.PAWNED item)) in
  (* If initial payment provided, create payment record *)
  let* _ := match LoanCreate.initial_payment loan_in with
            | Some p =>
                let* payment := new_payment new_id p in
                db_add (NewPayment payment)
            | None => ret tt
            end in
  let* _ := db_commit in
  (* Calculate loan details *)
  with_details new_id db_loan None.

(** The payments of a loan, latest first ([order_by(payment_date.desc())]).
    SQL leaves the order of rows of one date open; the sort fixes one. *)
Definition loan_payments_desc (db : Db) (loan_id : Z) : list (Z * Payment.t) :=
  merge_sort later_first
    (filter (fun r => Payment.loan_id r.2 = loan_id) (payments db)).

Definition read_loan (loan_id : Z) : M LoanWithDetails :=
  let* row := query (fun db => loans db !! loan_id) in
  let* loan := or_raise row (HTTPException 404 "Loan not found") in
  (* Get customer and item details *)
  let* customer := query (fun db => customers db !! Loan.customer_id loan) in
  let* item := query (fun db => loan_item db loan) in
  match customer, item with
  | Some customer, Some (_, item) =>
      (* Calculate loan details *)
      let* loan_details := calculate_loan_details loan_id loan None in
      (* Get payments *)
      let* payments := query (fun db => loan_payments_desc db loan_id) in
      ret (mkLoanWithDetails loan loan_details
             (Customer.first_name customer +:+ " " +:+ Customer.last_name customer)
             (Customer.phone customer) (Item.name item) payments)
  | _, _ => raise (HTTPException 404 "Related customer or item not found")
  end.




(** The database after one request to a loan handler. *)
Definition serve (req : LoanRequest) (db : Db) : Db :=
  match req with
  | PutLoan loan_id loan_in => snd (run (update_loan loan_id loan_in) db)
  | PostPayment loan_id payment_in => snd (run (add_payment loan_id payment_in) db)
  | PutExtend loan_id extension_in => snd (run (extend_loan loan_id extension_in) db)
  | PutRedeem loan_id redemption_in => snd (run (redeem_loan loan_id redemption_in) db)
  | PutDefault loan_id default_in => snd (run (default_loan loan_id default_in) db)
  end.

Definition loan_of (req : LoanRequest) : Z :=
  match req with
  | PutLoan loan_id _ | PostPayment loan_id _ | PutExtend loan_id _
  | PutRedeem loan_id _ | PutDefault loan_id _ => loan_id
  end.

(** *** More of routers/applications.py *)

Definition bulk_update_one (update_data : ApplicationUpdate.t) (current_user : User.t)
    (row : Z * Application.t) : M (Z * Application.t) :=
  let application := row.2 in
  let status_changed :=
    match ApplicationUpdate.status update_data with
    | Some st => bool_decide (st <> Application.status application)
    | None => false
    end in
  (* If rejecting, ensure rejection reason is provided *)
  let* _ := when (status_changed
                  && bool_decide (ApplicationUpdate.status update_data
                                  = Some ApplicationStatus.REJECTED)
                  && negb (truthy (default None (ApplicationUpdate.rejection_reason update_data))))
              (raise (HTTPException 400
                 ("Rejection reason is required when rejecting application "
                    +:+ str_int row.1))) in
  let app := updated_application utcnow update_data current_user application in
  let* _ := db_add (DirtyApplication row.1 app) in
  ret (row.1, app).

Fixpoint bulk_update_loop (update_data : ApplicationUpdate.t) (current_user : User.t)
    (applications : list (Z * Application.t)) : M (list (Z * Application.t)) :=
  match applications with
  | [] => ret []
  | row :: rest =>
      let* row' := bulk_update_one update_data current_user row in
      let* rest' := bulk_update_loop update_data current_user rest in
      ret (row' :: rest')
  end.

Definition bulk_update_applications (application_ids : list Z) (body : ApplicationUpdate.t)
    (current_user : User.t) : M (list (Z * Application.t)) :=
  (* request: BulkUpdateRequest = Body(...) *)
  let* update_data :=
    match ApplicationUpdate.validate_rejection_reason body with
    | inl e => raise e
    | inr b => ret b
    end in
  let* found :=
    query (fun db => filter (fun r => r.1 ∈ application_ids) (map_to_list (applications db))) in
  let* _ := match found with
            | [] => raise (HTTPException 404 "No applications found")
            | _ => ret tt
            end in
  let* updated := bulk_update_loop update_data current_user found in
  let* _ := db_commit in
  query (fun db => map (fun r => (r.1, default r.2 (applications db !! r.1))) updated).



(** *** More of routers/customers.py *)

Definition update_customer (customer_id : Z) (customer_in : CustomerUpdate.t)
    : M Customer.t :=
  let* row := query (fun db => customers db !! customer_id) in
  let* customer := or_raise row (HTTPException 404 "Customer not found") in
  (* Check if email is being updated and already exists *)
  let* _ :=
    if truthy (CustomerUpdate.email customer_in)
       && bool_decide (CustomerUpdate.email customer_in <> Some (Customer.email customer))
    then
      let* existing_customer :=
        query (fun db => head (filter
                 (fun r => Some (Customer.email r.2) = CustomerUpdate.email customer_in)
                 (map_to_list (customers db)))) in
      when (bool_decide (is_Some existing_customer))
        (raise (HTTPException 400 "A customer with this email already exists."))
    else ret tt in
  (* Check if phone is being updated and already exists *)
  let* _ :=
    if truthy (CustomerUpdate.phone customer_in)
       && bool_decide (CustomerUpdate.phone customer_in <> Some (Customer.phone customer))
    then
      let* existing_customer :=
        query (fun db => head (filter
                 (fun r => Some (Customer.phone r.2) = CustomerUpdate.phone customer_in)
                 (map_to_list (customers db)))) in
      when (bool_decide (is_Some existing_customer))
        (raise (HTTPException 400 "A customer with this phone number already exists."))
    else ret tt in
  let customer := customer_update_fields customer_in customer in
  let customer := Customer.set_updated_at (Some utcnow) customer in
  let* _ := db_add (DirtyCustomer customer_id customer) in
  let* _ := db_commit in
  query (fun db => default customer (customers db !! customer_id)).

(** *** routers/payments.py *)

Definition delete_payment (payment_id : Z) : M (Z * Payment.t) :=
  let* row := query (fun db => head (filter (fun r => r.1 = payment_id) (payments db))) in
  let* payment := or_raise row (HTTPException 404 "Payment not found") in
  (* Check if payment can be deleted (e.g., not too old, loan status, etc.) *)
  let* loan := query (fun db => loans db !! Payment.loan_id payment.2) in
  let* _ := when (match loan with
                  | Some loan =>
                      bool_decide (Loan.status loan
                                   ∈ [LoanStatusEnum.COMPLETED; LoanStatusEnum.DEFAULTED])
                  | None => false
                  end)
              (raise (HTTPException 400
                 "Cannot delete payment from a completed or defaulted loan")) in
  let* _ := db_delete_commit (remove_payment payment_id) in
  ret payment.

(** *** The writes of a request

    What each loan handler has staged when it reaches its commit, as a
    function of the database it was opened on. *)

Definition item_writes (db : Db) (loan : Loan.t) (st : ItemStatus.t) : list Pending :=
  match loan_item db loan with
  | Some (i, item) => [DirtyItem i (Item.set_status st item)]
  | None => []
  end.

Definition extended_loan (extension_in : LoanExtend.t) (loan : Loan.t) : Loan.t :=
  let loan := Loan.set_due_date (Loan.due_date loan + LoanExtend.additional_days extension_in) loan in
  let loan := Loan.set_term_days (Loan.term_days loan + LoanExtend.additional_days extension_in) loan in
  let loan := Loan.set_status LoanStatusEnum.EXTENDED loan in
  let loan :=
    if truthy (LoanExtend.notes extension_in)
    then Loan.set_notes
           (Some (or_empty (Loan.notes loan) +:+ nl +:+ "Extended on " +:+ str_date today +:+ ": "
                    +:+ or_empty (LoanExtend.notes extension_in))) loan
    else loan in
  Loan.set_updated_at (Some utcnow) loan.

Definition default_audit (default_in : LoanDefault.t) : string :=
  let default_notes := "Defaulted on " +:+ str_date (LoanDefault.default_date default_in) in
  let default_notes :=
    if truthy (LoanDefault.reason default_in)
    then default_notes +:+ ", Reason: " +:+ or_empty (LoanDefault.reason default_in)
    else default_notes in
  if truthy (LoanDefault.notes default_in)
  then default_notes +:+ ", Notes: " +:+ or_empty (LoanDefault.notes default_in)
  else default_notes.

Definition defaulted_loan (default_in : LoanDefault.t) (loan : Loan.t) : Loan.t :=
  Loan.set_updated_at (Some utcnow)
    (Loan.set_notes (Some (or_empty (Loan.notes loan) +:+ nl +:+ default_audit default_in))
       (Loan.set_status LoanStatusEnum.DEFAULTED loan)).

Definition updated_loan (loan_in : LoanUpdate.t) (loan : Loan.t) : Loan.t :=
  Loan.set_updated_at (Some utcnow) (update_fields loan_in loan).

Definition default_loan_writes (db : Db) (loan_id : Z) (loan : Loan.t)
    (default_in : LoanDefault.t) : list Pending :=
  DirtyLoan loan_id (defaulted_loan default_in loan)
  :: item_writes db (defaulted_loan default_in loan) ItemStatus.DEFAULTED.

(** What [calculate_loan_details] raises on the loan of [update_loan]:
    the request may have put [loan_amount] on the object. *)
Definition update_loan_error (loan_in : LoanUpdate.t) : Exn :=
  match LoanUpdate.loan_amount loan_in with
  | Some _ => TypeError
  | None => AttributeError
  end.

(** The status changes the handlers make, request by request. *)
Inductive transition : LoanRequest -> LoanStatusEnum.t -> LoanStatusEnum.t -> Prop :=
| transition_update loan_id loan_in s s' :
    s ∉ [LoanStatusEnum.COMPLETED; LoanStatusEnum.DEFAULTED] ->
    s' = default s (LoanUpdate.status loan_in) ->
    transition (PutLoan loan_id loan_in) s s'
| transition_payment loan_id payment_in s :
    s ∈ [LoanStatusEnum.PENDING; LoanStatusEnum.ACTIVE;
         LoanStatusEnum.OVERDUE; LoanStatusEnum.EXTENDED] ->
    transition (PostPayment loan_id payment_in) s LoanStatusEnum.COMPLETED
| transition_extend loan_id extension_in s :
    s ∈ [LoanStatusEnum.ACTIVE; LoanStatusEnum.OVERDUE] ->
    transition (PutExtend loan_id extension_in) s LoanStatusEnum.EXTENDED
| transition_redeem loan_id redemption_in s :
    s ∈ [LoanStatusEnum.ACTIVE; LoanStatusEnum.OVERDUE; LoanStatusEnum.EXTENDED] ->
    transition (PutRedeem loan_id redemption_in) s LoanStatusEnum.COMPLETED
| transition_default loan_id default_in s :
    s ∈ [LoanStatusEnum.ACTIVE; LoanStatusEnum.OVERDUE; LoanStatusEnum.EXTENDED] ->
    transition (PutDefault loan_id default_in) s LoanStatusEnum.DEFAULTED.

(** ** Properties *)

(** *** What Python and the ORM refuse *)

Ltac step :=
  cbn -[Qle_bool Qplus Qmult Qdiv Qminus inject_Z
        lookup insert delete last filter map_to_list].

Ltac enter_handler Hrow :=
  unfold bind, query, or_raise; cbn [store]; rewrite Hrow; cbn [ret when negb store].

(** C2: [calculate_loan_details] returns for no loan.  On a loan as the
    query loads it, [loan.loan_amount] raises [AttributeError], the
    mapped class having [principal_amount] and no [loan_amount]; on an
    object that was given the attribute, the comparison of the datetime
    [due_date] with [date.today()] raises [TypeError].  In both cases the
    session is as before: the function writes nothing. *)
Theorem calculate_loan_details_raises (s : Session) (loan_id : Z) (loan : Loan.t) :
  calculate_loan_details loan_id loan None s = (inl AttributeError, s)
  /\ forall loan_amount : Q,
       calculate_loan_details loan_id loan (Some loan_amount) s = (inl TypeError, s).
Proof. split; [|intros v]; reflexivity. Qed.

(** *** Status guards: a refused request stages nothing *)

Lemma add_payment_rejects (s : Session) (loan_id : Z) (loan : Loan.t)
    (payment_in : PaymentCreate.t) :
  loans (store s) !! loan_id = Some loan ->
  Loan.status loan ∉ [LoanStatusEnum.PENDING; LoanStatusEnum.ACTIVE;
                      LoanStatusEnum.OVERDUE; LoanStatusEnum.EXTENDED] ->
  add_payment loan_id payment_in s
  = (inl (HTTPException 400
            ("Cannot add payment to loan with status: "
               +:+ LoanStatusEnum.value (Loan.status loan))), s).
Proof.
  intros Hrow Hst. unfold add_payment. enter_handler Hrow.
  rewrite (bool_decide_eq_false_2 _ Hst). reflexivity.
Qed.

Lemma extend_loan_rejects (s : Session) (loan_id : Z) (loan : Loan.t)
    (extension_in : LoanExtend.t) :
  loans (store s) !! loan_id = Some loan ->
  Loan.status loan ∉ [LoanStatusEnum.ACTIVE; LoanStatusEnum.OVERDUE] ->
  extend_loan loan_id extension_in s
  = (inl (HTTPException 400
            ("Cannot extend loan with status: "
               +:+ LoanStatusEnum.value (Loan.status loan))), s).
Proof.
  intros Hrow Hst. unfold extend_loan. enter_handler Hrow.
  rewrite (bool_decide_eq_false_2 _ Hst). reflexivity.
Qed.

Lemma redeem_loan_rejects (s : Session) (loan_id : Z) (loan : Loan.t)
    (redemption_in : LoanRedeem.t) :
  loans (store s) !! loan_id = Some loan ->
  Loan.status loan ∉ [LoanStatusEnum.ACTIVE; LoanStatusEnum.OVERDUE;
                      LoanStatusEnum.EXTENDED] ->
  redeem_loan loan_id redemption_in s
  = (inl (HTTPException 400
            ("Cannot redeem loan with status: "
               +:+ LoanStatusEnum.value (Loan.status loan))), s).
Proof.
  intros Hrow Hst. unfold redeem_loan. enter_handler Hrow.
  rewrite (bool_decide_eq_false_2 _ Hst). reflexivity.
Qed.

Lemma default_loan_rejects (s : Session) (loan_id : Z) (loan : Loan.t)
    (default_in : LoanDefault.t) :
  loans (store s) !! loan_id = Some loan ->
  Loan.status loan ∉ [LoanStatusEnum.ACTIVE; LoanStatusEnum.OVERDUE;
                      LoanStatusEnum.EXTENDED] ->
  default_loan loan_id default_in s
  = (inl (HTTPException 400
            ("Cannot default loan with status: "
               +:+ LoanStatusEnum.value (Loan.status loan))), s).
Proof.
  intros Hrow Hst. unfold default_loan. enter_handler Hrow.
  rewrite (bool_decide_eq_false_2 _ Hst). reflexivity.
Qed.

Lemma update_loan_rejects (s : Session) (loan_id : Z) (loan : Loan.t)
    (loan_in : LoanUpdate.t) :
  loans (store s) !! loan_id = Some loan ->
  Loan.status loan ∈ [LoanStatusEnum.COMPLETED; LoanStatusEnum.DEFAULTED] ->
  update_loan loan_id loan_in s
  = (inl (HTTPException 400
            ("Cannot update loan with status: "
               +:+ LoanStatusEnum.value (Loan.status loan))), s).
Proof.
  intros Hrow Hst. unfold update_loan. enter_handler Hrow.
  rewrite (bool_decide_eq_true_2 _ Hst). reflexivity.
Qed.

(** *** Past the guards *)

(** The one commit of [update_loan] stores the columns of the request;
    then [calculate_loan_details] raises. *)
Lemma update_loan_run (db : Db) (loan_id : Z) (loan : Loan.t) (loan_in : LoanUpdate.t) :
  loans db !! loan_id = Some loan ->
  Loan.status loan ∉ [LoanStatusEnum.COMPLETED; LoanStatusEnum.DEFAULTED] ->
  run (update_loan loan_id loan_in) db
  = (inl (update_loan_error loan_in),
     flush_one db (DirtyLoan loan_id (updated_loan loan_in loan))).
Proof.
  intros Hrow Hst. unfold run, update_loan, update_loan_error, updated_loan, open.
  enter_handler Hrow. rewrite (bool_decide_eq_false_2 _ Hst).
  destruct (LoanUpdate.loan_amount loan_in); reflexivity.
Qed.

(** The row [update_loan] stores, column by column. *)
Lemma updated_loan_columns (loan_in : LoanUpdate.t) (loan : Loan.t) :
  updated_loan loan_in loan
  = Loan.mk (Loan.loan_number loan) (Loan.customer_id loan) (Loan.item_id loan)
      (Loan.principal_amount loan)
      (default (Loan.interest_rate loan) (LoanUpdate.interest_rate loan_in))
      (default (Loan.term_days loan) (LoanUpdate.term_days loan_in))
      (default (Loan.start_date loan) (LoanUpdate.start_date loan_in))
      (default (Loan.due_date loan) (LoanUpdate.due_date loan_in))
      (default (Loan.status loan) (LoanUpdate.status loan_in))
      (default (Loan.notes loan) (LoanUpdate.notes loan_in))
      (Loan.created_at loan) (Some utcnow) (Loan.extension_count loan).
Proof.
  destruct loan_in as [a b c d e f g h]. destruct loan.
  destruct b, c, d, e, f, h; reflexivity.
Qed.

Lemma add_payment_accepted (s : Session) (loan_id : Z) (loan : Loan.t)
    (payment_in : PaymentCreate.t) :
  loans (store s) !! loan_id = Some loan ->
  Loan.status loan ∈ [LoanStatusEnum.PENDING; LoanStatusEnum.ACTIVE;
                      LoanStatusEnum.OVERDUE; LoanStatusEnum.EXTENDED] ->
  add_payment loan_id payment_in s = (inl TypeError, s).
Proof.
  intros Hrow Hst. unfold add_payment. enter_handler Hrow.
  rewrite (bool_decide_eq_true_2 _ Hst). reflexivity.
Qed.

Lemma redeem_loan_accepted (s : Session) (loan_id : Z) (loan : Loan.t)
    (redemption_in : LoanRedeem.t) :
  loans (store s) !! loan_id = Some loan ->
  Loan.status loan ∈ [LoanStatusEnum.ACTIVE; LoanStatusEnum.OVERDUE;
                      LoanStatusEnum.EXTENDED] ->
  redeem_loan loan_id redemption_in s = (inl AttributeError, s).
Proof.
  intros Hrow Hst. unfold redeem_loan. enter_handler Hrow.
  rewrite (bool_decide_eq_true_2 _ Hst). reflexivity.
Qed.

(** With a payment in the request, [extend_loan] stops at the
    constructor of [Payment]; without one, its commit stores the
    extended loan and [calculate_loan_details] raises. *)
Lemma extend_loan_run (db : Db) (loan_id : Z) (loan : Loan.t)
    (extension_in : LoanExtend.t) :
  loans db !! loan_id = Some loan ->
  Loan.status loan ∈ [LoanStatusEnum.ACTIVE; LoanStatusEnum.OVERDUE] ->
  run (extend_loan loan_id extension_in) db
  = match LoanExtend.payment extension_in with
    | Some _ => (inl TypeError, db)
    | None =>
        (inl AttributeError,
         flush_one db (DirtyLoan loan_id (extended_loan extension_in loan)))
    end.
Proof.
  intros Hrow Hst. unfold run, extend_loan, extended_loan, open.
  enter_handler Hrow. rewrite (bool_decide_eq_true_2 _ Hst).
  destruct (LoanExtend.payment extension_in); [reflexivity|].
  destruct (truthy (LoanExtend.notes extension_in)); reflexivity.
Qed.

Lemma default_loan_run (db : Db) (loan_id : Z) (loan : Loan.t)
    (default_in : LoanDefault.t) :
  loans db !! loan_id = Some loan ->
  Loan.status loan ∈ [LoanStatusEnum.ACTIVE; LoanStatusEnum.OVERDUE;
                      LoanStatusEnum.EXTENDED] ->
  run (default_loan loan_id default_in) db
  = (inl AttributeError, flush db (default_loan_writes db loan_id loan default_in)).
Proof.
  intros Hrow Hst.
  unfold run, default_loan, default_loan_writes, item_writes, defaulted_loan,
    default_audit, loan_item, open.
  enter_handler Hrow. rewrite (bool_decide_eq_true_2 _ Hst).
  destruct (truthy (LoanDefault.reason default_in));
    destruct (truthy (LoanDefault.notes default_in));
    step; destruct (Loan.item_id loan ≫= _) as [[i item]|]; reflexivity.
Qed.

(** *** Payments *)

(** C1: on a loan that is PENDING, ACTIVE, OVERDUE or EXTENDED,
    [add_payment] raises [TypeError] where it builds the payment (the
    mapped class has no [updated_at]) and returns the session it was
    given: no payment row is appended, whatever the amount, and neither
    the loan nor the item is written. *)
Theorem add_payment_raises (db : Db) (loan_id : Z) (loan : Loan.t)
    (payment_in : PaymentCreate.t) :
  loans db !! loan_id = Some loan ->
  Loan.status loan ∈ [LoanStatusEnum.PENDING; LoanStatusEnum.ACTIVE;
                      LoanStatusEnum.OVERDUE; LoanStatusEnum.EXTENDED] ->
  refused (add_payment loan_id payment_in) db TypeError
  /\ run (add_payment loan_id payment_in) db = (inl TypeError, db).
Proof.
  intros Hrow Hst.
  assert (H := add_payment_accepted (open db) loan_id loan payment_in Hrow Hst).
  split; [exact H|]. unfold run. rewrite H. reflexivity.
Qed.

(** *** Terminal statuses *)

Ltac status_apart :=
  match goal with
  | H : Loan.status ?l ∈ _ |- Loan.status ?l ∉ _ =>
      let H' := fresh in
      intros H'; destruct (Loan.status l);
      repeat (apply elem_of_cons in H as [H|H]; [discriminate H|]);
      try (apply elem_of_nil in H; contradiction);
      repeat (apply elem_of_cons in H' as [H'|H']; [discriminate H'|]);
      apply elem_of_nil in H'; contradiction
  end.

(** C4: on a loan that is COMPLETED, DEFAULTED or CANCELLED, each of
    [add_payment], [extend_loan], [redeem_loan] and [default_loan] raises
    the 400 error of its status guard and returns the session it was
    given: nothing is staged and nothing is committed, so the loan, the
    payments and the item are as before. *)
Theorem lifecycle_refuses_terminal (db : Db) (loan_id : Z) (loan : Loan.t)
    (payment_in : PaymentCreate.t) (extension_in : LoanExtend.t)
    (redemption_in : LoanRedeem.t) (default_in : LoanDefault.t) :
  loans db !! loan_id = Some loan ->
  Loan.status loan ∈ [LoanStatusEnum.COMPLETED; LoanStatusEnum.DEFAULTED;
                      LoanStatusEnum.CANCELLED] ->
  let status := LoanStatusEnum.value (Loan.status loan) in
  add_payment loan_id payment_in (open db)
  = (inl (HTTPException 400 ("Cannot add payment to loan with status: " +:+ status)), open db)
  /\ extend_loan loan_id extension_in (open db)
     = (inl (HTTPException 400 ("Cannot extend loan with status: " +:+ status)), open db)
  /\ redeem_loan loan_id redemption_in (open db)
     = (inl (HTTPException 400 ("Cannot redeem loan with status: " +:+ status)), open db)
  /\ default_loan loan_id default_in (open db)
     = (inl (HTTPException 400 ("Cannot default loan with status: " +:+ status)), open db)
  /\ snd (run (add_payment loan_id payment_in) db) = db
  /\ snd (run (extend_loan loan_id extension_in) db) = db
  /\ snd (run (redeem_loan loan_id redemption_in) db) = db
  /\ snd (run (default_loan loan_id default_in) db) = db.
Proof.
  intros Hrow Hst status.
  assert (H1 := add_payment_rejects (open db) loan_id loan payment_in Hrow ltac:(status_apart)).
  assert (H2 := extend_loan_rejects (open db) loan_id loan extension_in Hrow ltac:(status_apart)).
  assert (H3 := redeem_loan_rejects (open db) loan_id loan redemption_in Hrow ltac:(status_apart)).
  assert (H4 := default_loan_rejects (open db) loan_id loan default_in Hrow ltac:(status_apart)).
  unfold run. rewrite H1, H2, H3, H4. repeat split.
Qed.

Lemma refused_run {A} (m : M A) (db : Db) (e : Exn) :
  refused m db e -> run m db = (inl e, db).
Proof. unfold refused, run. intros ->. reflexivity. Qed.

(** *** Redemption *)

(** C6: on a loan that is ACTIVE, OVERDUE or EXTENDED, [redeem_loan]
    raises [AttributeError] in [calculate_loan_details], before the
    balance is compared with the payment, and returns the session it was
    given.  So a payment below the balance is not answered with the 400
    error, and a payment that covers it is not recorded: the loan stays
    as it is and the item is not written. *)
Theorem redeem_loan_raises (db : Db) (loan_id : Z) (loan : Loan.t)
    (redemption_in : LoanRedeem.t) :
  loans db !! loan_id = Some loan ->
  Loan.status loan ∈ [LoanStatusEnum.ACTIVE; LoanStatusEnum.OVERDUE;
                      LoanStatusEnum.EXTENDED] ->
  refused (redeem_loan loan_id redemption_in) db AttributeError
  /\ run (redeem_loan loan_id redemption_in) db = (inl AttributeError, db).
Proof.
  intros Hrow Hst.
  assert (H := redeem_loan_accepted (open db) loan_id loan redemption_in Hrow Hst).
  split; [exact H|]. unfold run. rewrite H. reflexivity.
Qed.

(** *** Applications *)


(** *** Deletion guards *)

Lemma filter_inhabited {A} (P : A -> Prop) `{!forall x, Decision (P x)}
    (l : list A) (x : A) :
  x ∈ l -> P x -> (0 < length (filter P l))%nat.
Proof.
  intros Hin HP.
  assert (Hx : x ∈ filter P l) by (apply list_elem_of_filter; auto).
  destruct (filter P l); [apply elem_of_nil in Hx; contradiction | cbn; lia].
Qed.

Lemma filter_empty {A} (P : A -> Prop) `{!forall x, Decision (P x)} (l : list A) :
  (forall x, x ∈ l -> ~ P x) -> filter P l = [].
Proof.
  intros Hall. destruct (filter P l) as [|x k] eqn:E; [reflexivity|].
  assert (Hx : x ∈ filter P l) by (rewrite E; apply elem_of_cons; auto).
  apply list_elem_of_filter in Hx as [HP Hin]. exfalso. exact (Hall x Hin HP).
Qed.

(** C9, as the code has it: deleting a customer is refused with a 400
    error while a loan of the customer is ACTIVE or OVERDUE; otherwise the
    row stays in the table with [is_active] false and [updated_at] set to
    the clock, every other column as before.  In both cases the customer
    is still stored afterwards. *)
Theorem delete_customer_spec (db : Db) (customer_id : Z) (customer : Customer.t) :
  customers db !! customer_id = Some customer ->
  ((exists (k : Z) (l : Loan.t),
      loans db !! k = Some l /\ Loan.customer_id l = customer_id
      /\ Loan.status l ∈ [LoanStatusEnum.ACTIVE; LoanStatusEnum.OVERDUE]) ->
     exists n : Z,
       0 < n
       /\ refused (delete_customer customer_id) db
            (HTTPException 400
               ("Cannot delete customer with " +:+ str_int n +:+ " active loans")))
  /\ ((forall (k : Z) (l : Loan.t),
         loans db !! k = Some l -> Loan.customer_id l = customer_id ->
         Loan.status l ∉ [LoanStatusEnum.ACTIVE; LoanStatusEnum.OVERDUE]) ->
        let customer' :=
          Customer.mk (Customer.customer_code customer) (Customer.first_name customer)
            (Customer.last_name customer) (Customer.email customer)
            (Customer.phone customer) (Customer.address customer)
            false (Customer.credit_score customer) (Customer.notes customer)
            (Customer.created_at customer) (Some utcnow) in
        run (delete_customer customer_id) db
        = (inr customer',
           mkDb (loans db) (items db) (payments db) (payments_id_seq db)
                (<[customer_id := customer']> (customers db)) (applications db)))
  /\ is_Some (customers (snd (run (delete_customer customer_id) db)) !! customer_id).
Proof.
  intros Hrow.
  set (P := fun r : Z * Loan.t =>
              Loan.customer_id r.2 = customer_id
              /\ Loan.status r.2 ∈ [LoanStatusEnum.ACTIVE; LoanStatusEnum.OVERDUE]).
  set (n := Z.of_nat (length (filter P (map_to_list (loans db))))).
  assert (Hpos : 0 < n ->
            refused (delete_customer customer_id) db
              (HTTPException 400
                 ("Cannot delete customer with " +:+ str_int n +:+ " active loans"))).
  { intros Hn. unfold refused, delete_customer, open. enter_handler Hrow.
    fold P n. apply Z.gtb_lt in Hn. rewrite Hn. reflexivity. }
  assert (Hzero : n = 0 ->
            run (delete_customer customer_id) db
            = (inr (Customer.set_updated_at (Some utcnow)
                      (Customer.set_is_active false customer)),
               mkDb (loans db) (items db) (payments db) (payments_id_seq db)
                    (<[customer_id := Customer.set_updated_at (Some utcnow)
                                        (Customer.set_is_active false customer)]>
                       (customers db)) (applications db))).
  { intros Hn. unfold run, delete_customer, open. enter_handler Hrow.
    fold P n. rewrite Hn. reflexivity. }
  split; [|split].
  - intros (k & l & Hl & Hc & Hs). exists n. split; [|apply Hpos].
    all: subst n; apply (inj_lt 0), (filter_inhabited P _ (k, l));
      [apply elem_of_map_to_list; exact Hl | split; assumption].
  - intros Hnone customer'. apply Hzero. subst n.
    rewrite (filter_empty P); [reflexivity|].
    intros [k l] Hin [Hc Hs]. apply elem_of_map_to_list in Hin.
    exact (Hnone k l Hin Hc Hs).
  - destruct (Z.lt_trichotomy 0 n) as [Hn|[Hn|Hn]].
    + rewrite (refused_run _ _ _ (Hpos Hn)). cbn. rewrite Hrow. eauto.
    + rewrite (Hzero (eq_sym Hn)). cbn. rewrite lookup_insert_eq. eauto.
    + subst n. lia.
Qed.

Lemma head_elem_of {A} (l : list A) (x : A) : head l = Some x -> x ∈ l.
Proof. destruct l as [|y l]; [discriminate|]. intros [= ->]. apply elem_of_cons. auto. Qed.

Lemma item_loan_Some (db : Db) (item_id k : Z) (l : Loan.t) :
  item_loan db item_id = Some (k, l) ->
  loans db !! k = Some l /\ Loan.item_id l = Some item_id.
Proof.
  intros H. apply head_elem_of, list_elem_of_filter in H as [Hitem Hin].
  apply elem_of_map_to_list in Hin. auto.
Qed.

Lemma item_loan_None (db : Db) (item_id : Z) :
  item_loan db item_id = None ->
  forall (k : Z) (l : Loan.t), loans db !! k = Some l -> Loan.item_id l <> Some item_id.
Proof.
  unfold item_loan. intros H k l Hl Hitem.
  assert (Hin : (k, l) ∈ filter (fun r : Z * Loan.t => Loan.item_id r.2 = Some item_id)
                           (map_to_list (loans db))).
  { apply list_elem_of_filter. split; [exact Hitem | apply elem_of_map_to_list; exact Hl]. }
  destruct (filter _ _); [apply elem_of_nil in Hin; contradiction | discriminate H].
Qed.

Lemma item_loan_only (db : Db) (item_id k : Z) (l : Loan.t) :
  loans db !! k = Some l -> Loan.item_id l = Some item_id ->
  (forall (k' : Z) (l' : Loan.t),
     loans db !! k' = Some l' -> Loan.item_id l' = Some item_id -> k' = k) ->
  item_loan db item_id = Some (k, l).
Proof.
  intros Hl Hitem Honly.
  destruct (item_loan db item_id) as [[k' l']|] eqn:E.
  - apply item_loan_Some in E as [Hl' Hitem'].
    assert (k' = k) as -> by exact (Honly k' l' Hl' Hitem').
    congruence.
  - exfalso. exact (item_loan_None db item_id E k l Hl Hitem).
Qed.

(** With no ACTIVE or OVERDUE loan on the item, [delete_item] reaches
    its commit, which flushes the deletion. *)
Lemma delete_item_run (db : Db) (item_id : Z) (item : Item.t) :
  items db !! item_id = Some item ->
  (forall (k : Z) (l : Loan.t),
     loans db !! k = Some l -> Loan.item_id l = Some item_id ->
     Loan.status l ∉ [LoanStatusEnum.ACTIVE; LoanStatusEnum.OVERDUE]) ->
  run (delete_item item_id) db = (inr item, flush_one db (DeletedItem item_id now)).
Proof.
  intros Hrow Hnone.
  set (P := fun r : Z * Loan.t =>
              Loan.item_id r.2 = Some item_id
              /\ Loan.status r.2 ∈ [LoanStatusEnum.ACTIVE; LoanStatusEnum.OVERDUE]).
  unfold run, delete_item, open. enter_handler Hrow. fold P.
  rewrite (filter_empty P); [reflexivity|].
  intros [k l] Hin [Hc Hs]. apply elem_of_map_to_list in Hin.
  exact (Hnone k l Hin Hc Hs).
Qed.

(** What the flush of a deletion does to the loans. *)
Lemma orphaned_loans (db : Db) (item_id : Z) :
  let db' := flush_one db (DeletedItem item_id now) in
  (forall (k : Z) (l : Loan.t),
     loans db !! k = Some l -> Loan.item_id l <> Some item_id -> loans db' !! k = Some l)
  /\ (forall (k : Z) (l : Loan.t),
        loans db !! k = Some l -> Loan.item_id l = Some item_id ->
        (forall (k' : Z) (l' : Loan.t),
           loans db !! k' = Some l' -> Loan.item_id l' = Some item_id -> k' = k) ->
        loans db' !! k = Some (orphaned now l))
  /\ (forall k : Z, is_Some (loans db' !! k) <-> is_Some (loans db !! k)).
Proof.
  cbn [flush_one loans].
  destruct (item_loan db item_id) as [[k0 l0]|] eqn:E.
  - destruct (item_loan_Some _ _ _ _ E) as [Hl0 Hitem0]. repeat split.
    + intros k l Hl Hitem. rewrite lookup_insert_ne; [exact Hl|].
      intros ->. rewrite Hl0 in Hl. injection Hl as ->. contradiction.
    + intros k l Hl Hitem Honly.
      assert (k0 = k) as -> by exact (Honly k0 l0 Hl0 Hitem0).
      rewrite lookup_insert_eq. congruence.
    + destruct (decide (k = k0)) as [->|Hk].
      * rewrite lookup_insert_eq, Hl0. eauto.
      * rewrite lookup_insert_ne by congruence. auto.
    + destruct (decide (k = k0)) as [->|Hk].
      * rewrite lookup_insert_eq, Hl0. eauto.
      * rewrite lookup_insert_ne by congruence. auto.
  - repeat split; auto.
    intros k l Hl Hitem _. exfalso. exact (item_loan_None db item_id E k l Hl Hitem).
Qed.


(** C5, as the code has it: a COMPLETED or DEFAULTED loan is refused,
    with a 400 error and nothing written, by [update_loan] and by the
    four lifecycle handlers; a CANCELLED loan is refused by the four
    lifecycle handlers, while the commit of [update_loan] stores the
    columns of the request on it.  The deletion of its item, which no
    status but ACTIVE and OVERDUE blocks, rewrites the loan in every
    other status: the only loan of the item is stored without [item_id]
    and with a new [updated_at]. *)
Theorem terminal_statuses_spec (db : Db) (loan_id : Z) (loan : Loan.t)
    (loan_in : LoanUpdate.t) (payment_in : PaymentCreate.t)
    (extension_in : LoanExtend.t) (redemption_in : LoanRedeem.t)
    (default_in : LoanDefault.t) :
  loans db !! loan_id = Some loan ->
  let status := LoanStatusEnum.value (Loan.status loan) in
  (Loan.status loan ∈ [LoanStatusEnum.COMPLETED; LoanStatusEnum.DEFAULTED;
                       LoanStatusEnum.CANCELLED] ->
     refused (add_payment loan_id payment_in) db
       (HTTPException 400 ("Cannot add payment to loan with status: " +:+ status))
     /\ refused (extend_loan loan_id extension_in) db
          (HTTPException 400 ("Cannot extend loan with status: " +:+ status))
     /\ refused (redeem_loan loan_id redemption_in) db
          (HTTPException 400 ("Cannot redeem loan with status: " +:+ status))
     /\ refused (default_loan loan_id default_in) db
          (HTTPException 400 ("Cannot default loan with status: " +:+ status)))
  /\ (Loan.status loan ∈ [LoanStatusEnum.COMPLETED; LoanStatusEnum.DEFAULTED] ->
        refused (update_loan loan_id loan_in) db
          (HTTPException 400 ("Cannot update loan with status: " +:+ status)))
  /\ (Loan.status loan = LoanStatusEnum.CANCELLED ->
        let loan' :=
          Loan.mk (Loan.loan_number loan) (Loan.customer_id loan) (Loan.item_id loan)
            (Loan.principal_amount loan)
            (default (Loan.interest_rate loan) (LoanUpdate.interest_rate loan_in))
            (default (Loan.term_days loan) (LoanUpdate.term_days loan_in))
            (default (Loan.start_date loan) (LoanUpdate.start_date loan_in))
            (default (Loan.due_date loan) (LoanUpdate.due_date loan_in))
            (default LoanStatusEnum.CANCELLED (LoanUpdate.status loan_in))
            (default (Loan.notes loan) (LoanUpdate.notes loan_in))
            (Loan.created_at loan) (Some utcnow) (Loan.extension_count loan) in
        loans (snd (run (update_loan loan_id loan_in) db)) = <[loan_id := loan']> (loans db))
  /\ (forall (i : Z) (item : Item.t),
        Loan.item_id loan = Some i -> items db !! i = Some item ->
        Loan.status loan ∉ [LoanStatusEnum.ACTIVE; LoanStatusEnum.OVERDUE] ->
        (forall (k : Z) (l : Loan.t),
           loans db !! k = Some l -> Loan.item_id l = Some i -> k = loan_id) ->
        loans (snd (run (delete_item i) db)) !! loan_id
        = Some (Loan.set_updated_at (Some now) (Loan.set_item_id None loan))).
Proof.
  intros Hrow status. split; [|split; [|split]].
  - intros Hst. unfold refused. repeat split.
    + apply add_payment_rejects; [exact Hrow | status_apart].
    + apply extend_loan_rejects; [exact Hrow | status_apart].
    + apply redeem_loan_rejects; [exact Hrow | status_apart].
    + apply default_loan_rejects; [exact Hrow | status_apart].
  - intros Hst. apply update_loan_rejects; assumption.
  - intros Hst loan'. subst loan'. rewrite <- Hst, <- updated_loan_columns.
    rewrite (update_loan_run db loan_id loan loan_in Hrow); [reflexivity|].
    rewrite Hst. intros H.
    repeat (apply elem_of_cons in H as [H|H]; [discriminate H|]).
    apply elem_of_nil in H. contradiction.
  - intros i item Hitem Hrow_item Hst Honly.
    rewrite (delete_item_run db i item Hrow_item).
    + destruct (orphaned_loans db i) as (_ & Hown & _).
      exact (Hown loan_id loan Hrow Hitem Honly).
    + intros k l Hl Hi. rewrite (Honly k l Hl Hi) in Hl.
      rewrite Hrow in Hl. injection Hl as <-. exact Hst.
Qed.

(** ** Further properties of the loan handlers *)

(** *** What a request leaves in the database *)

Lemma serve_cases (req : LoanRequest) (db : Db) :
  serve req db = db
  \/ exists loan : Loan.t,
       loans db !! loan_of req = Some loan
       /\ match req with
          | PutLoan loan_id loan_in =>
              (Loan.status loan ∉ [LoanStatusEnum.COMPLETED; LoanStatusEnum.DEFAULTED])
              /\ serve req db = flush db [DirtyLoan loan_id (updated_loan loan_in loan)]
          | PutExtend loan_id extension_in =>
              Loan.status loan ∈ [LoanStatusEnum.ACTIVE; LoanStatusEnum.OVERDUE]
              /\ serve req db = flush db [DirtyLoan loan_id (extended_loan extension_in loan)]
          | PutDefault loan_id default_in =>
              Loan.status loan ∈ [LoanStatusEnum.ACTIVE; LoanStatusEnum.OVERDUE;
                                  LoanStatusEnum.EXTENDED]
              /\ serve req db = flush db (default_loan_writes db loan_id loan default_in)
          | PostPayment _ _ | PutRedeem _ _ => False
          end.
Proof.
  destruct req as [id u|id p|id e|id r|id d]; cbn [serve loan_of];
    (destruct (loans db !! id) as [loan|] eqn:Hrow;
     [|left; unfold run;
       try unfold update_loan; try unfold add_payment; try unfold extend_loan;
       try unfold redeem_loan; try unfold default_loan;
       unfold open; enter_handler Hrow; reflexivity]).
  - destruct (decide (Loan.status loan
                      ∈ [LoanStatusEnum.COMPLETED; LoanStatusEnum.DEFAULTED])) as [Hst|Hst].
    + left. unfold run. rewrite (update_loan_rejects (open db) id loan u Hrow Hst). reflexivity.
    + right. exists loan. split; [reflexivity|]. split; [exact Hst|].
      rewrite (update_loan_run db id loan u Hrow Hst). reflexivity.
  - left. destruct (decide (Loan.status loan
                      ∈ [LoanStatusEnum.PENDING; LoanStatusEnum.ACTIVE;
                         LoanStatusEnum.OVERDUE; LoanStatusEnum.EXTENDED])) as [Hst|Hst].
    + unfold run. rewrite (add_payment_accepted (open db) id loan p Hrow Hst). reflexivity.
    + unfold run. rewrite (add_payment_rejects (open db) id loan p Hrow Hst). reflexivity.
  - destruct (decide (Loan.status loan
                      ∈ [LoanStatusEnum.ACTIVE; LoanStatusEnum.OVERDUE])) as [Hst|Hst].
    + rewrite (extend_loan_run db id loan e Hrow Hst).
      destruct (LoanExtend.payment e); [left; reflexivity|].
      right. exists loan. split; [reflexivity|]. split; [exact Hst | reflexivity].
    + left. unfold run. rewrite (extend_loan_rejects (open db) id loan e Hrow Hst). reflexivity.
  - left. destruct (decide (Loan.status loan
                      ∈ [LoanStatusEnum.ACTIVE; LoanStatusEnum.OVERDUE;
                         LoanStatusEnum.EXTENDED])) as [Hst|Hst].
    + unfold run. rewrite (redeem_loan_accepted (open db) id loan r Hrow Hst). reflexivity.
    + unfold run. rewrite (redeem_loan_rejects (open db) id loan r Hrow Hst). reflexivity.
  - destruct (decide (Loan.status loan
                      ∈ [LoanStatusEnum.ACTIVE; LoanStatusEnum.OVERDUE;
                         LoanStatusEnum.EXTENDED])) as [Hst|Hst].
    + right. exists loan. split; [reflexivity|]. split; [exact Hst|].
      rewrite (default_loan_run db id loan d Hrow Hst). reflexivity.
    + left. unfold run. rewrite (default_loan_rejects (open db) id loan d Hrow Hst). reflexivity.
Qed.

Ltac in_list H :=
  repeat (apply elem_of_cons in H as [H|H]; [try discriminate H|]);
  try (apply elem_of_nil in H; contradiction).

Ltac status_clash H1 H2 :=
  match type of H1 with
  | Loan.status ?l ∈ _ => destruct (Loan.status l); in_list H1; in_list H2
  end.

Ltac writes_cases :=
  unfold default_loan_writes, item_writes;
  repeat case_match; step.

Lemma update_fields_status (loan_in : LoanUpdate.t) (loan : Loan.t) :
  Loan.status (update_fields loan_in loan)
  = default (Loan.status loan) (LoanUpdate.status loan_in).
Proof.
  destruct loan_in as [a b c d e f g h].
  destruct a, b, c, d, e, f, g, h; reflexivity.
Qed.

Lemma serve_loans_frame (req : LoanRequest) (db : Db) (k : Z) :
  k <> loan_of req -> loans (serve req db) !! k = loans db !! k.
Proof.
  intros Hk. destruct (serve_cases req db) as [->|(loan & Hrow & Hcase)]; [reflexivity|].
  destruct req; cbn [loan_of] in *; try contradiction; destruct Hcase as [_ ->];
    writes_cases; rewrite ?lookup_insert_ne by congruence; reflexivity.
Qed.

Lemma serve_loan_kept (req : LoanRequest) (db : Db) (k : Z) :
  is_Some (loans (serve req db) !! k) <-> is_Some (loans db !! k).
Proof.
  destruct (decide (k = loan_of req)) as [->|Hk];
    [|rewrite serve_loans_frame by exact Hk; reflexivity].
  destruct (serve_cases req db) as [->|(loan & Hrow & Hcase)]; [reflexivity|].
  destruct req; cbn [loan_of] in *; try contradiction; destruct Hcase as [_ ->];
    writes_cases; rewrite ?lookup_insert_eq, ?Hrow; split; eauto.
Qed.

Lemma serve_closed_loan (req : LoanRequest) (db : Db) (k : Z) (loan : Loan.t) :
  loans db !! k = Some loan ->
  Loan.status loan ∈ [LoanStatusEnum.COMPLETED; LoanStatusEnum.DEFAULTED] ->
  loans (serve req db) !! k = Some loan.
Proof.
  intros Hrow Hst. destruct (decide (k = loan_of req)) as [->|Hk];
    [|rewrite serve_loans_frame by exact Hk; exact Hrow].
  destruct (serve_cases req db) as [->|(loan' & Hrow' & Hcase)]; [exact Hrow|].
  rewrite Hrow in Hrow'. injection Hrow' as <-. exfalso.
  destruct req; try contradiction; destruct Hcase as [Hok _]; try (exact (Hok Hst));
    status_clash Hst Hok.
Qed.



(** *** Missing rows, defaults and extensions *)

(** X1: every loan handler answers 404 "Loan not found" for an id that is
    not in the table, and stages nothing. *)
Theorem loan_not_found (db : Db) (loan_id : Z) (loan_in : LoanUpdate.t)
    (payment_in : PaymentCreate.t) (extension_in : LoanExtend.t)
    (redemption_in : LoanRedeem.t) (default_in : LoanDefault.t) :
  loans db !! loan_id = None ->
  let e := HTTPException 404 "Loan not found" in
  refused (read_loan loan_id) db e
  /\ refused (update_loan loan_id loan_in) db e
  /\ refused (add_payment loan_id payment_in) db e
  /\ refused (extend_loan loan_id extension_in) db e
  /\ refused (redeem_loan loan_id redemption_in) db e
  /\ refused (default_loan loan_id default_in) db e.
Proof.
  intros Hrow e. unfold refused, open.
  repeat split;
    [ unfold read_loan | unfold update_loan | unfold add_payment
    | unfold extend_loan | unfold redeem_loan | unfold default_loan ];
    enter_handler Hrow; reflexivity.
Qed.



(** X4: [extend_loan] keeps the due date in step with the term: if the
    due date was [calculate_due_date] of the start date and the term, it
    still is after the extension. *)
Theorem extend_loan_keeps_due_date (db : Db) (loan_id : Z) (loan : Loan.t)
    (extension_in : LoanExtend.t) :
  loans db !! loan_id = Some loan ->
  Loan.status loan ∈ [LoanStatusEnum.ACTIVE; LoanStatusEnum.OVERDUE] ->
  Loan.due_date loan = calculate_due_date (Loan.start_date loan) (Loan.term_days loan) ->
  exists loan' : Loan.t,
    loans (snd (run (extend_loan loan_id extension_in) db)) !! loan_id = Some loan'
    /\ Loan.start_date loan' = Loan.start_date loan
    /\ Loan.due_date loan'
       = calculate_due_date (Loan.start_date loan') (Loan.term_days loan').
Proof.
  intros Hrow Hst Hdue.
  rewrite (extend_loan_run db loan_id loan extension_in Hrow Hst).
  destruct (LoanExtend.payment extension_in).
  - exists loan. cbn [snd]. repeat split; assumption.
  - exists (extended_loan extension_in loan). cbn [snd].
    split; [step; apply lookup_insert_eq|].
    unfold extended_loan, calculate_due_date in *.
    destruct (truthy (LoanExtend.notes extension_in)); cbn; split; try reflexivity; lia.
Qed.


(** *** Requests that are never answered *)

(** X6: [redeem_loan] never redeems a loan: for every database and
    every request it raises (404, the 400 error of the status guard, or
    [AttributeError] past the guard) and returns the session it was
    given, so it writes nothing. *)
Theorem redeem_loan_never_returns (db : Db) (loan_id : Z) (redemption_in : LoanRedeem.t) :
  exists e : Exn,
    refused (redeem_loan loan_id redemption_in) db e
    /\ match loans db !! loan_id with
       | None => e = HTTPException 404 "Loan not found"
       | Some loan =>
           if bool_decide (Loan.status loan ∈ [LoanStatusEnum.ACTIVE; LoanStatusEnum.OVERDUE;
                                               LoanStatusEnum.EXTENDED])
           then e = AttributeError
           else e = HTTPException 400
                      ("Cannot redeem loan with status: "
                         +:+ LoanStatusEnum.value (Loan.status loan))
       end.
Proof.
  unfold refused. destruct (loans db !! loan_id) as [loan|] eqn:Hrow.
  - destruct (decide (Loan.status loan ∈ [LoanStatusEnum.ACTIVE; LoanStatusEnum.OVERDUE;
                                          LoanStatusEnum.EXTENDED])) as [Hst|Hst].
    + rewrite (bool_decide_eq_true_2 _ Hst). eexists. split; [|reflexivity].
      exact (redeem_loan_accepted (open db) loan_id loan redemption_in Hrow Hst).
    + rewrite (bool_decide_eq_false_2 _ Hst). eexists. split; [|reflexivity].
      exact (redeem_loan_rejects (open db) loan_id loan redemption_in Hrow Hst).
  - eexists. split; [|reflexivity].
    unfold redeem_loan, open. enter_handler Hrow. reflexivity.
Qed.

(** X7: [add_payment] never records a payment: for every database and
    every request it raises (404, the 400 error of the status guard, or
    [TypeError] past the guard) and returns the session it was given,
    so no row is appended and no loan is completed. *)
Theorem add_payment_never_returns (db : Db) (loan_id : Z) (payment_in : PaymentCreate.t) :
  exists e : Exn,
    refused (add_payment loan_id payment_in) db e
    /\ match loans db !! loan_id with
       | None => e = HTTPException 404 "Loan not found"
       | Some loan =>
           if bool_decide (Loan.status loan ∈ [LoanStatusEnum.PENDING; LoanStatusEnum.ACTIVE;
                                               LoanStatusEnum.OVERDUE; LoanStatusEnum.EXTENDED])
           then e = TypeError
           else e = HTTPException 400
                      ("Cannot add payment to loan with status: "
                         +:+ LoanStatusEnum.value (Loan.status loan))
       end.
Proof.
  unfold refused. destruct (loans db !! loan_id) as [loan|] eqn:Hrow.
  - destruct (decide (Loan.status loan ∈ [LoanStatusEnum.PENDING; LoanStatusEnum.ACTIVE;
                                          LoanStatusEnum.OVERDUE; LoanStatusEnum.EXTENDED]))
      as [Hst|Hst].
    + rewrite (bool_decide_eq_true_2 _ Hst). eexists. split; [|reflexivity].
      exact (add_payment_accepted (open db) loan_id loan payment_in Hrow Hst).
    + rewrite (bool_decide_eq_false_2 _ Hst). eexists. split; [|reflexivity].
      exact (add_payment_rejects (open db) loan_id loan payment_in Hrow Hst).
  - eexists. split; [|reflexivity].
    unfold add_payment, open. enter_handler Hrow. reflexivity.
Qed.

(** X28: [update_loan] on a loan that is not COMPLETED or DEFAULTED
    commits the columns of the request and [updated_at], and then raises
    instead of returning the loan: [AttributeError] when the request
    sets no [loan_amount], [TypeError] when it does.  The [loan_amount]
    and the [collateral_description] of the request reach no column:
    two requests that differ only in them store the same row. *)
Theorem update_loan_commits_then_raises (db : Db) (loan_id : Z) (loan : Loan.t)
    (loan_in : LoanUpdate.t) :
  loans db !! loan_id = Some loan ->
  Loan.status loan ∉ [LoanStatusEnum.COMPLETED; LoanStatusEnum.DEFAULTED] ->
  let stored (r : LoanUpdate.t) := snd (run (update_loan loan_id r) db) in
  (exists e : Exn,
     run (update_loan loan_id loan_in) db = (inl e, stored loan_in)
     /\ e = match LoanUpdate.loan_amount loan_in with
            | Some _ => TypeError
            | None => AttributeError
            end)
  /\ loans (stored loan_in)
     = <[loan_id :=
           Loan.mk (Loan.loan_number loan) (Loan.customer_id loan) (Loan.item_id loan)
             (Loan.principal_amount loan)
             (default (Loan.interest_rate loan) (LoanUpdate.interest_rate loan_in))
             (default (Loan.term_days loan) (LoanUpdate.term_days loan_in))
             (default (Loan.start_date loan) (LoanUpdate.start_date loan_in))
             (default (Loan.due_date loan) (LoanUpdate.due_date loan_in))
             (default (Loan.status loan) (LoanUpdate.status loan_in))
             (default (Loan.notes loan) (LoanUpdate.notes loan_in))
             (Loan.created_at loan) (Some utcnow) (Loan.extension_count loan)]> (loans db)
  /\ (forall (amount : option Q) (description : option (option string)),
        stored (LoanUpdate.mk amount (LoanUpdate.interest_rate loan_in)
                  (LoanUpdate.term_days loan_in) (LoanUpdate.start_date loan_in)
                  (LoanUpdate.due_date loan_in) (LoanUpdate.status loan_in)
                  description (LoanUpdate.notes loan_in))
        = stored loan_in)
  /\ payments (stored loan_in) = payments db
  /\ items (stored loan_in) = items db.
Proof.
  intros Hrow Hst stored. subst stored. cbv beta.
  rewrite (update_loan_run db loan_id loan loan_in Hrow Hst). cbn [snd].
  split; [eexists; split; reflexivity|].
  split; [rewrite <- updated_loan_columns; reflexivity|].
  split; [|split; reflexivity].
  intros amount description. rewrite (update_loan_run db loan_id loan _ Hrow Hst). reflexivity.
Qed.

(** *** The ledger and the state machine *)

(** X8: the loan handlers only ever append to the payment ledger: a
    request leaves the rows it found in place and adds at most one row,
    which belongs to the loan of the request and takes the next id of the
    sequence. *)
Theorem ledger_append_only (req : LoanRequest) (db : Db) :
  exists extra : list (Z * Payment.t),
    payments (serve req db) = payments db ++ extra
    /\ (length extra <= 1)%nat
    /\ Forall (fun r => r.1 = payments_id_seq db /\ Payment.loan_id r.2 = loan_of req) extra
    /\ payments_id_seq (serve req db) = payments_id_seq db + Z.of_nat (length extra).
Proof.
  exists []. rewrite app_nil_r.
  destruct (serve_cases req db) as [->|(loan & Hrow & Hcase)].
  - repeat split; [cbn; lia | constructor | cbn; lia].
  - destruct req; cbn [loan_of] in *; try contradiction; destruct Hcase as [_ ->];
      writes_cases; repeat split; first [cbn; lia | constructor].
Qed.

(** X9: a request to a loan handler creates and deletes no loan and no
    item, writes no loan other than its own and no item other than the
    one its loan refers to, and leaves customers and applications alone. *)
Theorem serve_frame (req : LoanRequest) (db : Db) :
  (forall k : Z, k <> loan_of req -> loans (serve req db) !! k = loans db !! k)
  /\ (forall k : Z, is_Some (loans (serve req db) !! k) <-> is_Some (loans db !! k))
  /\ (forall i : Z,
        (forall loan : Loan.t,
           loans db !! loan_of req = Some loan -> Loan.item_id loan <> Some i) ->
        items (serve req db) !! i = items db !! i)
  /\ (forall i : Z, is_Some (items (serve req db) !! i) <-> is_Some (items db !! i))
  /\ customers (serve req db) = customers db
  /\ applications (serve req db) = applications db.
Proof.
  split; [intros k; apply serve_loans_frame|].
  split; [intros k; apply serve_loan_kept|].
  destruct (serve_cases req db) as [->|(loan & Hrow & Hcase)];
    [repeat split; intros; auto|].
  assert (Hitem : forall (d : LoanDefault.t) (i0 : Z) (item : Item.t),
             loan_item db (defaulted_loan d loan) = Some (i0, item) ->
             Loan.item_id loan = Some i0 /\ items db !! i0 = Some item).
  { intros d i0 item. unfold loan_item, defaulted_loan. cbn [Loan.item_id Loan.set_updated_at
      Loan.set_notes Loan.set_status].
    destruct (Loan.item_id loan) as [j|]; [|discriminate]. cbn.
    destruct (items db !! j) as [it|] eqn:E; [|discriminate]. cbn. intros [= <- <-]. auto. }
  split; [|split; [|split]].
  - intros i Hi. specialize (Hi loan Hrow).
    destruct req as [id u|id p|id e|id r|id d]; cbn [loan_of] in *; try contradiction;
      destruct Hcase as [_ ->]; [reflexivity..|].
    unfold default_loan_writes, item_writes.
    destruct (loan_item db (defaulted_loan d loan)) as [[i0 item]|] eqn:E; [|reflexivity].
    apply Hitem in E as [E _]. step. rewrite lookup_insert_ne by congruence. reflexivity.
  - intros i.
    destruct req as [id u|id p|id e|id r|id d]; cbn [loan_of] in *; try contradiction;
      destruct Hcase as [_ ->]; [reflexivity..|].
    unfold default_loan_writes, item_writes.
    destruct (loan_item db (defaulted_loan d loan)) as [[i0 item]|] eqn:E; [|reflexivity].
    apply Hitem in E as [_ E]. step.
    destruct (decide (i = i0)) as [->|Hi];
      [rewrite lookup_insert_eq, E; split; eauto
      |rewrite lookup_insert_ne by congruence; reflexivity].
  - destruct req; cbn [loan_of] in *; try contradiction; destruct Hcase as [_ ->];
      writes_cases; reflexivity.
  - destruct req; cbn [loan_of] in *; try contradiction; destruct Hcase as [_ ->];
      writes_cases; reflexivity.
Qed.

(** X10: the status of a loan changes only along the transitions of the
    handlers: the generic update sets the requested status on a loan that
    is not COMPLETED or DEFAULTED; a payment or a redemption leads to
    COMPLETED, an extension to EXTENDED, a default to DEFAULTED, each from
    the statuses its guard admits.  Otherwise the row is as it was. *)
Theorem serve_transition (req : LoanRequest) (db : Db) (loan loan' : Loan.t) :
  loans db !! loan_of req = Some loan ->
  loans (serve req db) !! loan_of req = Some loan' ->
  loan' = loan \/ transition req (Loan.status loan) (Loan.status loan').
Proof.
  intros Hrow Hrow'.
  destruct (serve_cases req db) as [Heq|(loan0 & Hrow0 & Hcase)].
  - left. rewrite Heq, Hrow in Hrow'. congruence.
  - rewrite Hrow in Hrow0. injection Hrow0 as <-.
    destruct req as [id u|id p|id e|id r|id d]; cbn [loan_of] in *; try contradiction;
      destruct Hcase as [Hst Heq]; rewrite Heq in Hrow'.
    + right. revert Hrow'. step. rewrite lookup_insert_eq. intros [= <-].
      constructor; [exact Hst|]. cbn. apply update_fields_status.
    + right. revert Hrow'. step. rewrite lookup_insert_eq. intros [= <-].
      unfold extended_loan; destruct (truthy (LoanExtend.notes e));
        constructor; exact Hst.
    + right. revert Hrow'. writes_cases; rewrite lookup_insert_eq; intros [= <-];
        constructor; exact Hst.
Qed.

(** X11: COMPLETED and DEFAULTED are final: whatever requests the loan
    handlers serve afterwards, to this loan or to others, the row of a
    loan in one of these statuses never changes. *)
Theorem closed_loan_stays_closed (reqs : list LoanRequest) (db : Db) (k : Z)
    (loan : Loan.t) :
  loans db !! k = Some loan ->
  Loan.status loan ∈ [LoanStatusEnum.COMPLETED; LoanStatusEnum.DEFAULTED] ->
  loans (foldl (fun db req => serve req db) db reqs) !! k = Some loan.
Proof.
  intros Hrow Hst. revert db Hrow.
  induction reqs as [|req reqs IH]; intros db Hrow; [exact Hrow|].
  cbn. apply IH. apply serve_closed_loan; assumption.
Qed.

(** *** Creating and reading a loan *)

(** X12: [create_loan] checks the customer, then the item, then the
    status of the item: an unknown customer and an unknown item are
    answered 404, and the status check refuses every item, whatever its
    status, PAWNED and FOR_SALE included, with a 400 error that prints
    the member ([ItemStatus.PAWNED]), because it compares the member
    with strings.  Each check answers before anything is written. *)
Theorem create_loan_guards (db : Db) (new_id : Z) (loan_code : string)
    (loan_in : LoanCreate.t) :
  (customers db !! LoanCreate.customer_id loan_in = None ->
     refused (create_loan new_id loan_code loan_in) db
       (HTTPException 404 "Customer not found"))
  /\ (is_Some (customers db !! LoanCreate.customer_id loan_in) ->
      items db !! LoanCreate.item_id loan_in = None ->
      refused (create_loan new_id loan_code loan_in) db
        (HTTPException 404 "Item not found"))
  /\ forall item : Item.t,
       is_Some (customers db !! LoanCreate.customer_id loan_in) ->
       items db !! LoanCreate.item_id loan_in = Some item ->
       refused (create_loan new_id loan_code loan_in) db
         (HTTPException 400
            ("Item is not available for loan, current status: ItemStatus."
               +:+ ItemStatus.name (Item.status item))).
Proof.
  clear str_date str_float now.
  unfold refused, create_loan, open. split; [|split].
  - intros Hc. enter_handler Hc. reflexivity.
  - intros [c Hc] Hi. enter_handler Hc. unfold bind, ret. cbn [store].
    rewrite Hi. reflexivity.
  - intros item [c Hc] Hi. enter_handler Hc. unfold bind, ret. cbn [store].
    rewrite Hi. reflexivity.
Qed.

(** X13: [create_loan] never creates a loan: for every database and
    every request it raises and returns the session it was given, so
    no loan, item or payment is written. *)
Theorem create_loan_never_returns (db : Db) (new_id : Z) (loan_code : string)
    (loan_in : LoanCreate.t) :
  exists e : Exn, refused (create_loan new_id loan_code loan_in) db e.
Proof.
  clear str_date str_float now.
  unfold refused, create_loan, open.
  destruct (customers db !! LoanCreate.customer_id loan_in) as [c|] eqn:Hc;
    [|eexists; enter_handler Hc; reflexivity].
  destruct (items db !! LoanCreate.item_id loan_in) as [item|] eqn:Hi;
    eexists; enter_handler Hc; unfold bind, ret; cbn [store]; rewrite Hi; reflexivity.
Qed.

Lemma read_loan_cases (db : Db) (loan_id : Z) :
  refused (read_loan loan_id) db
    match loans db !! loan_id with
    | None => HTTPException 404 "Loan not found"
    | Some loan =>
        match customers db !! Loan.customer_id loan, loan_item db loan with
        | Some _, Some _ => AttributeError
        | _, _ => HTTPException 404 "Related customer or item not found"
        end
    end.
Proof.
  unfold refused, read_loan, open.
  destruct (loans db !! loan_id) as [loan|] eqn:Hrow; enter_handler Hrow; [|reflexivity].
  destruct (customers db !! Loan.customer_id loan) as [c|];
    destruct (loan_item db loan) as [[i item]|]; reflexivity.
Qed.

(** X14: [read_loan] never shows a loan.  For a stored loan whose
    customer or item is missing (or whose [item_id] is NULL) it answers
    404 "Related customer or item not found"; when both exist it raises
    [AttributeError] in [calculate_loan_details].  It writes nothing. *)
Theorem read_loan_spec (db : Db) (loan_id : Z) (loan : Loan.t) :
  loans db !! loan_id = Some loan ->
  (customers db !! Loan.customer_id loan = None
   \/ Loan.item_id loan = None
   \/ (exists i : Z, Loan.item_id loan = Some i /\ items db !! i = None) ->
     refused (read_loan loan_id) db
       (HTTPException 404 "Related customer or item not found"))
  /\ (forall (customer : Customer.t) (i : Z) (item : Item.t),
        customers db !! Loan.customer_id loan = Some customer ->
        Loan.item_id loan = Some i -> items db !! i = Some item ->
        refused (read_loan loan_id) db AttributeError).
Proof.
  intros Hrow. assert (H := read_loan_cases db loan_id). rewrite Hrow in H.
  unfold loan_item in H. split.
  - intros Hmiss. destruct (customers db !! Loan.customer_id loan) as [c|].
    + destruct Hmiss as [Hc|[Hi|(i & Hi & Hitem)]]; [discriminate Hc|..];
        rewrite Hi in H; cbn in H; rewrite ?Hitem in H; exact H.
    + exact H.
  - intros customer i item Hc Hi Hitem. rewrite Hc, Hi in H. cbn in H.
    rewrite Hitem in H. exact H.
Qed.

(** X15: deleting an item hides its loan.  When [delete_item] has
    removed the item of a loan that is neither ACTIVE nor OVERDUE, the
    only loan on that item, the loan is still in the table, without its
    [item_id] and with [updated_at] set by the database, and [read_loan]
    answers 404 "Related customer or item not found" for it. *)
Theorem deleted_item_hides_loan (db : Db) (loan_id : Z) (loan : Loan.t)
    (i : Z) (item : Item.t) :
  loans db !! loan_id = Some loan ->
  Loan.item_id loan = Some i ->
  items db !! i = Some item ->
  Loan.status loan ∉ [LoanStatusEnum.ACTIVE; LoanStatusEnum.OVERDUE] ->
  (forall (k : Z) (l : Loan.t),
     loans db !! k = Some l -> Loan.item_id l = Some i -> k = loan_id) ->
  let db' := snd (run (delete_item i) db) in
  loans db' !! loan_id
  = Some (Loan.set_updated_at (Some now) (Loan.set_item_id None loan))
  /\ refused (read_loan loan_id) db'
       (HTTPException 404 "Related customer or item not found").
Proof.
  intros Hrow Hi Hitem Hst Honly db'.
  assert (Hrow' : loans db' !! loan_id = Some (orphaned now loan)).
  { subst db'. rewrite (delete_item_run db i item Hitem).
    - destruct (orphaned_loans db i) as (_ & Hown & _).
      exact (Hown loan_id loan Hrow Hi Honly).
    - intros k l Hl Hil. rewrite (Honly k l Hl Hil) in Hl.
      rewrite Hrow in Hl. injection Hl as <-. exact Hst. }
  split; [exact Hrow'|].
  assert (H := read_loan_cases db' loan_id). rewrite Hrow' in H.
  unfold loan_item in H. cbn [orphaned Loan.item_id Loan.set_updated_at Loan.set_item_id] in H.
  cbn [mbind option_bind] in H.
  destruct (customers db' !! _); exact H.
Qed.



(** ** Applications in bulk, and their deletion *)

Lemma bulk_update_loop_cons (update_data : ApplicationUpdate.t) (current_user : User.t)
    (row : Z * Application.t) (found : list (Z * Application.t)) (s : Session) :
  bulk_update_loop update_data current_user (row :: found) s
  = if match ApplicationUpdate.status update_data with
       | Some st => bool_decide (st <> Application.status row.2)
       | None => false
       end
       && bool_decide (ApplicationUpdate.status update_data = Some ApplicationStatus.REJECTED)
       && negb (truthy (default None (ApplicationUpdate.rejection_reason update_data)))
    then (inl (HTTPException 400
                 ("Rejection reason is required when rejecting application "
                    +:+ str_int row.1)), s)
    else match bulk_update_loop update_data current_user found
                 (mkSession (store s)
                    (pending s
                     ++ [DirtyApplication row.1
                           (updated_application utcnow update_data current_user row.2)]))
         with
         | (inl e, s') => (inl e, s')
         | (inr rest', s') =>
             (inr ((row.1, updated_application utcnow update_data current_user row.2)
                   :: rest'), s')
         end.
Proof.
  cbn [bulk_update_loop]. unfold bulk_update_one. unfold bind, db_add, when, raise, ret.
  destruct (_ && _ && negb _); [reflexivity|]. lazy beta iota.
  destruct (bulk_update_loop _ _ _ _) as [[e|rest'] s']; reflexivity.
Qed.

Lemma bulk_update_loop_cases (update_data : ApplicationUpdate.t) (current_user : User.t)
    (found : list (Z * Application.t)) (s : Session) :
  (exists e s', bulk_update_loop update_data current_user found s = (inl e, s')
                /\ store s' = store s)
  \/ bulk_update_loop update_data current_user found s
     = (inr (map (fun r => (r.1, updated_application utcnow update_data current_user r.2)) found),
        mkSession (store s)
          (pending s
           ++ map (fun r => DirtyApplication r.1
                              (updated_application utcnow update_data current_user r.2))
                found)).
Proof.
  revert s. induction found as [|row found IH]; intros s.
  - right. cbn. unfold ret. rewrite app_nil_r. destruct s; reflexivity.
  - rewrite bulk_update_loop_cons.
    destruct (_ && _ && negb _).
    + left. eexists _, s. split; reflexivity.
    + destruct (IH (mkSession (store s)
                      (pending s
                       ++ [DirtyApplication row.1
                             (updated_application utcnow update_data current_user row.2)])))
        as [(e & s' & Hloop & Hstore)|Hloop]; rewrite Hloop.
      * left. exists e, s'. split; [reflexivity | exact Hstore].
      * right. cbn [store pending map]. rewrite <- app_assoc. reflexivity.
Qed.

Lemma flush_dirty_applications (f : Application.t -> Application.t)
    (l : list (Z * Application.t)) (db : Db) :
  let db' := flush db (map (fun r => DirtyApplication r.1 (f r.2)) l) in
  (loans db' = loans db /\ items db' = items db /\ payments db' = payments db
   /\ payments_id_seq db' = payments_id_seq db /\ customers db' = customers db)
  /\ (NoDup l.*1 ->
      forall id : Z,
        (forall a : Application.t, (id, a) ∈ l -> applications db' !! id = Some (f a))
        /\ (id ∉ l.*1 -> applications db' !! id = applications db !! id)).
Proof.
  revert db. induction l as [|[k a0] l IH]; intros db db'; subst db'.
  - split; [repeat split|]. intros _ id. split; [|reflexivity].
    intros a Ha. apply elem_of_nil in Ha. contradiction.
  - cbn [map flush fold_left fst snd].
    destruct (IH (flush_one db (DirtyApplication k (f a0)))) as [Hframe Hlook].
    unfold flush in Hframe, Hlook.
    split; [exact Hframe|].
    intros Hnd id. apply NoDup_cons in Hnd as [Hk Hnd].
    destruct (Hlook Hnd id) as [Hin Hout]. split.
    + intros a Ha. apply elem_of_cons in Ha as [[= -> ->]|Ha]; [|exact (Hin a Ha)].
      rewrite (Hout Hk). cbn. apply lookup_insert_eq.
    + intros Hid. apply not_elem_of_cons in Hid as [Hne Hid].
      cbn in Hne. rewrite (Hout Hid). cbn. apply lookup_insert_ne. congruence.
Qed.

Lemma found_applications (db : Db) (ids : list Z) :
  let found := filter (fun r : Z * Application.t => r.1 ∈ ids)
                 (map_to_list (applications db)) in
  NoDup found.*1
  /\ (forall (id : Z) (a : Application.t),
        (id, a) ∈ found <-> id ∈ ids /\ applications db !! id = Some a)
  /\ (forall id : Z, id ∈ found.*1 <-> id ∈ ids /\ is_Some (applications db !! id)).
Proof.
  intros found. subst found.
  assert (Hin : forall (id : Z) (a : Application.t),
            (id, a) ∈ filter (fun r : Z * Application.t => r.1 ∈ ids)
                       (map_to_list (applications db))
            <-> id ∈ ids /\ applications db !! id = Some a).
  { intros id a. rewrite list_elem_of_filter, elem_of_map_to_list. reflexivity. }
  split; [|split; [exact Hin|]].
  - eapply sublist_NoDup; [apply (NoDup_fst_map_to_list (applications db))|].
    apply fmap_sublist, sublist_filter.
  - intros id. rewrite list_elem_of_fmap. split.
    + intros ([k a] & -> & Hr). apply Hin in Hr as [H1 H2]. cbn. eauto.
    + intros [H1 [a H2]]. exists (id, a). split; [reflexivity|]. apply Hin. auto.
Qed.

(** X17: [bulk_update_applications] is all or nothing.  When it raises,
    whether on the body, on an empty selection or on an application of
    the selection that would be rejected without a reason, the database
    is as before, also if earlier applications of the selection had been
    updated in the session.  When it returns, every stored application
    whose id is in the request has become what the update makes of it,
    and nothing else has changed. *)
Theorem bulk_update_all_or_nothing (db : Db) (application_ids : list Z)
    (body : ApplicationUpdate.t) (current_user : User.t) :
  match run (bulk_update_applications application_ids body current_user) db with
  | (inl _, db') => db' = db
  | (inr _, db') =>
      (forall id : Z,
         applications db' !! id
         = if decide (id ∈ application_ids)
           then updated_application utcnow body current_user <$> applications db !! id
           else applications db !! id)
      /\ loans db' = loans db /\ items db' = items db /\ payments db' = payments db
      /\ customers db' = customers db
  end.
Proof.
  unfold run, bulk_update_applications, ApplicationUpdate.validate_rejection_reason, open.
  unfold bind at 1.
  set (found := filter (fun r : Z * Application.t => r.1 ∈ application_ids)
                  (map_to_list (applications db))).
  assert (Hmain :
    match (let* found := query (fun db => filter (fun r : Z * Application.t => r.1 ∈ application_ids)
                                            (map_to_list (applications db))) in
           let* _ := match found with
                     | [] => raise (HTTPException 404 "No applications found")
                     | _ => ret tt
                     end in
           let* updated := bulk_update_loop body current_user found in
           let* _ := db_commit in
           query (fun db => map (fun r => (r.1, default r.2 (applications db !! r.1))) updated))
            (mkSession db [])
    with
    | (inl _, s) => store s = db
    | (inr _, s) =>
        (forall id : Z,
           applications (store s) !! id
           = if decide (id ∈ application_ids)
             then updated_application utcnow body current_user <$> applications db !! id
             else applications db !! id)
        /\ loans (store s) = loans db /\ items (store s) = items db
        /\ payments (store s) = payments db /\ customers (store s) = customers db
    end).
  { unfold bind at 1, query. cbn [store]. fold found.
    unfold bind at 1.
    destruct found as [|row rest] eqn:Hfound; [reflexivity|]. rewrite <- Hfound.
    cbn [ret]. unfold bind at 1.
    destruct (bulk_update_loop_cases body current_user found (mkSession db []))
      as [(e & s' & Hloop & Hstore)|Hloop]; rewrite Hloop; [exact Hstore|].
    unfold bind, db_commit, query. cbn [store pending app].
    destruct (found_applications db application_ids) as (Hnd & Hin & Hkeys).
    fold found in Hnd, Hin, Hkeys.
    destruct (flush_dirty_applications (updated_application utcnow body current_user) found db)
      as [(H1 & H2 & H3 & _ & H5) Hlook].
    split; [|repeat split; assumption].
    intros id. destruct (Hlook Hnd id) as [Hsel Hout].
    destruct (decide (id ∈ application_ids)) as [Hid|Hid].
    - destruct (applications db !! id) as [a|] eqn:Ha.
      + apply Hsel, Hin. auto.
      + rewrite Hout; [reflexivity|]. rewrite Hkeys, Ha. intros [_ [x Hx]]. discriminate Hx.
    - rewrite Hout; [reflexivity|]. rewrite Hkeys. intros [H _]. contradiction. }
  assert (Hgo :
    let (r, db') :=
      let '(r, s) :=
        (let* found := query (fun db => filter (fun r : Z * Application.t => r.1 ∈ application_ids)
                                          (map_to_list (applications db))) in
         let* _ := match found with
                   | [] => raise (HTTPException 404 "No applications found")
                   | _ => ret tt
                   end in
         let* updated := bulk_update_loop body current_user found in
         let* _ := db_commit in
         query (fun db => map (fun r => (r.1, default r.2 (applications db !! r.1))) updated))
          (mkSession db []) in
      (r, store s) in
    match r with
    | inl _ => db' = db
    | inr _ =>
        (forall id : Z,
           applications db' !! id
           = if decide (id ∈ application_ids)
             then updated_application utcnow body current_user <$> applications db !! id
             else applications db !! id)
        /\ loans db' = loans db /\ items db' = items db
        /\ payments db' = payments db /\ customers db' = customers db
    end).
  { match type of Hmain with
    | match ?t with _ => _ end => destruct t as [[e|out] s]
    end; exact Hmain. }
  destruct (ApplicationUpdate.rejection_reason body) as [v|].
  - destruct (bool_decide _ && negb _); [reflexivity|]. exact Hgo.
  - exact Hgo.
Qed.






(** ** Customers *)

Lemma head_filter_is_Some {A} (P : A -> Prop) `{!forall x, Decision (P x)} (l : list A) :
  is_Some (head (filter P l)) <-> exists x, x ∈ l /\ P x.
Proof.
  split.
  - intros [x Hx]. exists x.
    assert (Hin : x ∈ filter P l).
    { destruct (filter P l) as [|y k]; [discriminate Hx|].
      injection Hx as ->. apply elem_of_cons. auto. }
    apply list_elem_of_filter in Hin as [HP Hin]. auto.
  - intros (x & Hin & HP).
    assert (Hlen := filter_inhabited P l x Hin HP).
    destruct (filter P l); [cbn in Hlen; lia | cbn; eauto].
Qed.

Lemma update_customer_cases (db : Db) (customer_id : Z) (customer_in : CustomerUpdate.t) :
  snd (run (update_customer customer_id customer_in) db) = db
  \/ exists customer : Customer.t,
       customers db !! customer_id = Some customer
       /\ (truthy (CustomerUpdate.email customer_in) = true ->
           CustomerUpdate.email customer_in <> Some (Customer.email customer) ->
           forall (j : Z) (cj : Customer.t),
             customers db !! j = Some cj ->
             Some (Customer.email cj) <> CustomerUpdate.email customer_in)
       /\ (truthy (CustomerUpdate.phone customer_in) = true ->
           CustomerUpdate.phone customer_in <> Some (Customer.phone customer) ->
           forall (j : Z) (cj : Customer.t),
             customers db !! j = Some cj ->
             Some (Customer.phone cj) <> CustomerUpdate.phone customer_in)
       /\ run (update_customer customer_id customer_in) db
          = (inr (Customer.set_updated_at (Some utcnow)
                    (customer_update_fields customer_in customer)),
             flush db [DirtyCustomer customer_id
                         (Customer.set_updated_at (Some utcnow)
                            (customer_update_fields customer_in customer))]).
Proof.
  unfold run, update_customer, open.
  destruct (customers db !! customer_id) as [customer|] eqn:Hrow;
    [|left; enter_handler Hrow; reflexivity].
  enter_handler Hrow.
  set (Pe := fun r : Z * Customer.t =>
               Some (Customer.email r.2) = CustomerUpdate.email customer_in).
  set (Pp := fun r : Z * Customer.t =>
               Some (Customer.phone r.2) = CustomerUpdate.phone customer_in).
  assert (Hfree : forall (P : Z * Customer.t -> Prop) `{!forall x, Decision (P x)},
            ~ is_Some (head (filter P (map_to_list (customers db)))) ->
            forall (j : Z) (cj : Customer.t), customers db !! j = Some cj -> ~ P (j, cj)).
  { intros P HP Hnone j cj Hj HPj. apply Hnone, head_filter_is_Some.
    exists (j, cj). split; [apply elem_of_map_to_list; exact Hj | exact HPj]. }
  destruct (truthy (CustomerUpdate.email customer_in)
            && bool_decide (CustomerUpdate.email customer_in
                            <> Some (Customer.email customer))) eqn:He.
  - destruct (decide (is_Some (head (filter Pe (map_to_list (customers db)))))) as [Hex|Hex].
    + left. rewrite (bool_decide_eq_true_2 _ Hex). reflexivity.
    + rewrite (bool_decide_eq_false_2 _ Hex). cbn [when ret].
      destruct (truthy (CustomerUpdate.phone customer_in)
                && bool_decide (CustomerUpdate.phone customer_in
                                <> Some (Customer.phone customer))) eqn:Hp.
      * destruct (decide (is_Some (head (filter Pp (map_to_list (customers db))))))
          as [Hex'|Hex'].
        { left. rewrite (bool_decide_eq_true_2 _ Hex'). reflexivity. }
        rewrite (bool_decide_eq_false_2 _ Hex'). right. exists customer.
        split; [reflexivity|]. split; [intros _ _; exact (Hfree Pe _ Hex)|].
        split; [intros _ _; exact (Hfree Pp _ Hex')|].
        step. rewrite lookup_insert_eq. reflexivity.
      * right. exists customer.
        split; [reflexivity|]. split; [intros _ _; exact (Hfree Pe _ Hex)|].
        split.
        { intros Ht Hd. rewrite Ht, (bool_decide_eq_true_2 _ Hd) in Hp. discriminate Hp. }
        step. rewrite lookup_insert_eq. reflexivity.
  - cbn [ret].
    assert (Hemail : truthy (CustomerUpdate.email customer_in) = true ->
              CustomerUpdate.email customer_in <> Some (Customer.email customer) ->
              forall (j : Z) (cj : Customer.t),
                customers db !! j = Some cj ->
                Some (Customer.email cj) <> CustomerUpdate.email customer_in).
    { intros Ht Hd. rewrite Ht, (bool_decide_eq_true_2 _ Hd) in He. discriminate He. }
    destruct (truthy (CustomerUpdate.phone customer_in)
              && bool_decide (CustomerUpdate.phone customer_in
                              <> Some (Customer.phone customer))) eqn:Hp.
    + destruct (decide (is_Some (head (filter Pp (map_to_list (customers db))))))
        as [Hex'|Hex'].
      { left. rewrite (bool_decide_eq_true_2 _ Hex'). reflexivity. }
      rewrite (bool_decide_eq_false_2 _ Hex'). right. exists customer.
      split; [reflexivity|]. split; [exact Hemail|].
      split; [intros _ _; exact (Hfree Pp _ Hex')|].
      step. rewrite lookup_insert_eq. reflexivity.
    + right. exists customer.
      split; [reflexivity|]. split; [exact Hemail|]. split.
      { intros Ht Hd. rewrite Ht, (bool_decide_eq_true_2 _ Hd) in Hp. discriminate Hp. }
      step. rewrite lookup_insert_eq. reflexivity.
Qed.

Lemma truthy_Some (s : string) : s <> "" -> truthy (Some s) = true.
Proof. destruct s; [intros H; contradiction | reflexivity]. Qed.

Lemma unique_after_update (column : Customer.t -> string) (db : Db) (id : Z)
    (c c' : Customer.t) :
  unique_on column db ->
  customers db !! id = Some c ->
  (column c' = column c
   \/ forall (j : Z) (cj : Customer.t), customers db !! j = Some cj -> column cj <> column c') ->
  unique_on column (flush db [DirtyCustomer id c']).
Proof.
  intros Huniq Hrow Hcol i j ci cj. cbn [flush fold_left flush_one customers].
  destruct (decide (i = id)) as [->|Hi]; destruct (decide (j = id)) as [->|Hj];
    rewrite ?lookup_insert_eq, ?lookup_insert_ne by congruence; try reflexivity.
  - intros [= <-] Hcj Heq. destruct Hcol as [Hsame|Hnew].
    + apply (Huniq id j c cj Hrow Hcj). congruence.
    + exfalso. exact (Hnew j cj Hcj (eq_sym Heq)).
  - intros Hci [= <-] Heq. destruct Hcol as [Hsame|Hnew].
    + apply (Huniq i id ci c Hci Hrow). congruence.
    + exfalso. exact (Hnew i ci Hci Heq).
  - apply Huniq.
Qed.

(** X20: [update_customer] keeps e-mail addresses and phone numbers
    unique: if no two customers share an e-mail address before the
    request, none do after it, and likewise for phone numbers, provided
    the request does not set the column to the empty string (an empty
    value skips the check of the handler). *)
Theorem update_customer_keeps_unique (db : Db) (customer_id : Z)
    (customer_in : CustomerUpdate.t) :
  (CustomerUpdate.email customer_in <> Some "" ->
   unique_on Customer.email db ->
   unique_on Customer.email (snd (run (update_customer customer_id customer_in) db)))
  /\ (CustomerUpdate.phone customer_in <> Some "" ->
      unique_on Customer.phone db ->
      unique_on Customer.phone (snd (run (update_customer customer_id customer_in) db))).
Proof.
  destruct (update_customer_cases db customer_id customer_in)
    as [->|(c & Hrow & Hemail & Hphone & ->)]; [split; auto|].
  cbn [snd]. split; intros Hne Huniq; apply (unique_after_update _ db customer_id c);
    try assumption; cbn.
  - destruct (CustomerUpdate.email customer_in) as [e|] eqn:He; [|left; reflexivity].
    destruct (decide (e = Customer.email c)) as [->|Hd]; [left; reflexivity|].
    right. intros j cj Hj Heq. cbn in Heq.
    apply (Hemail (truthy_Some e ltac:(congruence)) ltac:(congruence) j cj Hj). congruence.
  - destruct (CustomerUpdate.phone customer_in) as [e|] eqn:He; [|left; reflexivity].
    destruct (decide (e = Customer.phone c)) as [->|Hd]; [left; reflexivity|].
    right. intros j cj Hj Heq. cbn in Heq.
    apply (Hphone (truthy_Some e ltac:(congruence)) ltac:(congruence) j cj Hj). congruence.
Qed.

Lemma delete_customer_run (db : Db) (customer_id : Z) (customer : Customer.t) :
  customers db !! customer_id = Some customer ->
  (forall (k : Z) (l : Loan.t),
     loans db !! k = Some l -> Loan.customer_id l = customer_id ->
     Loan.status l ∉ [LoanStatusEnum.ACTIVE; LoanStatusEnum.OVERDUE]) ->
  snd (run (delete_customer customer_id) db)
  = flush db [DirtyCustomer customer_id
                (Customer.set_updated_at (Some utcnow)
                   (Customer.set_is_active false customer))].
Proof.
  intros Hrow Hnone. unfold run, delete_customer, open. enter_handler Hrow.
  rewrite (filter_empty _); [reflexivity|].
  intros [k l] Hin [Hc Hs]. apply elem_of_map_to_list in Hin.
  exact (Hnone k l Hin Hc Hs).
Qed.

Lemma update_customer_unchecked (db : Db) (customer_id : Z)
    (customer_in : CustomerUpdate.t) (customer : Customer.t) :
  customers db !! customer_id = Some customer ->
  truthy (CustomerUpdate.email customer_in) = false ->
  truthy (CustomerUpdate.phone customer_in) = false ->
  snd (run (update_customer customer_id customer_in) db)
  = flush db [DirtyCustomer customer_id
                (Customer.set_updated_at (Some utcnow)
                   (customer_update_fields customer_in customer))].
Proof.
  intros Hrow He Hp. unfold run, update_customer, open. enter_handler Hrow.
  rewrite He, Hp. reflexivity.
Qed.

(** X21: the soft delete of a customer can be undone through the update:
    after [delete_customer], an [update_customer] that only sets
    [is_active] to true stores the customer as it was before the
    deletion, but for [updated_at]; the other tables never changed. *)
Theorem delete_customer_undone (db : Db) (customer_id : Z) (customer : Customer.t) :
  customers db !! customer_id = Some customer ->
  Customer.is_active customer = true ->
  (forall (k : Z) (l : Loan.t),
     loans db !! k = Some l -> Loan.customer_id l = customer_id ->
     Loan.status l ∉ [LoanStatusEnum.ACTIVE; LoanStatusEnum.OVERDUE]) ->
  let reactivate := CustomerUpdate.mk None None None None None None (Some true) in
  let deleted := snd (run (delete_customer customer_id) db) in
  let restored := snd (run (update_customer customer_id reactivate) deleted) in
  Customer.is_active <$> customers deleted !! customer_id = Some false
  /\ customers restored
     = <[customer_id := Customer.set_updated_at (Some utcnow) customer]> (customers db)
  /\ loans restored = loans db /\ items restored = items db
  /\ payments restored = payments db /\ applications restored = applications db.
Proof.
  intros Hrow Hactive Hnone reactivate deleted restored. subst deleted restored.
  rewrite (delete_customer_run db customer_id customer Hrow Hnone).
  cbn [flush fold_left flush_one].
  split; [cbn; rewrite lookup_insert_eq; reflexivity|].
  rewrite (update_customer_unchecked _ customer_id reactivate
             (Customer.set_updated_at (Some utcnow) (Customer.set_is_active false customer)));
    [|cbn; apply lookup_insert_eq|reflexivity|reflexivity].
  cbn [flush fold_left flush_one customers loans items payments applications].
  rewrite insert_insert_eq.
  destruct customer; cbn in Hactive; subst. repeat split.
Qed.


(** ** Deleting payments *)

Lemma filter_all {A} (P : A -> Prop) `{!forall x, Decision (P x)} (l : list A) :
  (forall x, x ∈ l -> P x) -> filter P l = l.
Proof.
  induction l as [|x l IH]; intros Hall; [reflexivity|].
  rewrite filter_cons, decide_True by (apply Hall, elem_of_cons; auto).
  f_equal. apply IH. intros y Hy. apply Hall, elem_of_cons. auto.
Qed.

Lemma first_payment_with_id (rows before after : list (Z * Payment.t)) (id : Z)
    (p : Payment.t) :
  rows = before ++ (id, p) :: after ->
  id ∉ before.*1 ->
  head (filter (fun r : Z * Payment.t => r.1 = id) rows) = Some (id, p).
Proof.
  intros -> Hfresh. rewrite filter_app, (filter_empty _ before).
  - rewrite filter_cons, decide_True by reflexivity. reflexivity.
  - intros [k q] Hin Hk. cbn in Hk. subst k. apply Hfresh.
    apply list_elem_of_fmap. exists (id, q). auto.
Qed.

Lemma delete_payment_cases (db : Db) (payment_id : Z)
    (before after : list (Z * Payment.t)) (p : Payment.t) :
  payments db = before ++ (payment_id, p) :: after ->
  payment_id ∉ before.*1 ->
  (forall loan : Loan.t,
     loans db !! Payment.loan_id p = Some loan ->
     Loan.status loan ∈ [LoanStatusEnum.COMPLETED; LoanStatusEnum.DEFAULTED] ->
     refused (delete_payment payment_id) db
       (HTTPException 400 "Cannot delete payment from a completed or defaulted loan"))
  /\ ((forall loan : Loan.t,
         loans db !! Payment.loan_id p = Some loan ->
         Loan.status loan ∉ [LoanStatusEnum.COMPLETED; LoanStatusEnum.DEFAULTED]) ->
        run (delete_payment payment_id) db
        = (inr (payment_id, p), remove_payment payment_id db)
        /\ payments (remove_payment payment_id db)
           = before ++ filter (fun r => r.1 <> payment_id) after
        /\ loans (remove_payment payment_id db) = loans db).
Proof.
  intros Hrows Hfresh.
  assert (Hhead := first_payment_with_id _ _ _ _ _ Hrows Hfresh).
  unfold refused, run, delete_payment, open. split.
  - intros loan Hloan Hst. enter_handler Hhead. cbn [snd]. rewrite Hloan.
    rewrite (bool_decide_eq_true_2 _ Hst). reflexivity.
  - intros Hopen. enter_handler Hhead. cbn [snd].
    destruct (loans db !! Payment.loan_id p) as [loan|] eqn:Hloan.
    + rewrite (bool_decide_eq_false_2 _ (Hopen loan eq_refl)).
      split; [reflexivity|]. split; [|reflexivity].
      cbn [payments remove_payment]. rewrite Hrows, filter_app.
      rewrite filter_cons, decide_False by (intros H; exact (H eq_refl)).
      f_equal. apply filter_all. intros [k q] Hin Hk. cbn in Hk. subst k.
      apply Hfresh, list_elem_of_fmap. exists (payment_id, q). auto.
    + split; [reflexivity|]. split; [|reflexivity].
      cbn [payments remove_payment]. rewrite Hrows, filter_app.
      rewrite filter_cons, decide_False by (intros H; exact (H eq_refl)).
      f_equal. apply filter_all. intros [k q] Hin Hk. cbn in Hk. subst k.
      apply Hfresh, list_elem_of_fmap. exists (payment_id, q). auto.
Qed.

(** X22: [delete_payment] deletes the first row with the given id, unless
    the loan of the payment is COMPLETED or DEFAULTED: then it answers 400
    and deletes nothing.  A payment of a loan in any other status, or of a
    loan that is not stored, is removed, and the other rows are kept in
    their order.  An id that no row has is answered 404. *)
Theorem delete_payment_spec (db : Db) (payment_id : Z) :
  (payment_id ∉ (payments db).*1 ->
     refused (delete_payment payment_id) db (HTTPException 404 "Payment not found"))
  /\ forall (before after : list (Z * Payment.t)) (p : Payment.t),
       payments db = before ++ (payment_id, p) :: after ->
       payment_id ∉ before.*1 ->
       (forall loan : Loan.t,
          loans db !! Payment.loan_id p = Some loan ->
          Loan.status loan ∈ [LoanStatusEnum.COMPLETED; LoanStatusEnum.DEFAULTED] ->
          refused (delete_payment payment_id) db
            (HTTPException 400 "Cannot delete payment from a completed or defaulted loan"))
       /\ ((forall loan : Loan.t,
              loans db !! Payment.loan_id p = Some loan ->
              Loan.status loan ∉ [LoanStatusEnum.COMPLETED; LoanStatusEnum.DEFAULTED]) ->
             run (delete_payment payment_id) db
             = (inr (payment_id, p), remove_payment payment_id db)
             /\ payments (remove_payment payment_id db)
                = before ++ filter (fun r => r.1 <> payment_id) after
             /\ loans (remove_payment payment_id db) = loans db).
Proof.
  split; [|apply delete_payment_cases].
  intros Hfresh. unfold refused, delete_payment, open.
  assert (Hhead : head (filter (fun r : Z * Payment.t => r.1 = payment_id) (payments db))
                  = None).
  { rewrite (filter_empty _); [reflexivity|].
    intros [k q] Hin Hk. cbn in Hk. subst k.
    apply Hfresh, list_elem_of_fmap. exists (payment_id, q). auto. }
  enter_handler Hhead. reflexivity.
Qed.

End Handlers.

(** *** The permission check *)

Lemma check_permissions_held (perms : list string) (required : list Permission.t) :
  Forall (fun p => Permission.value p ∈ perms) required ->
  check_permissions perms required = inr tt.
Proof.
  induction 1 as [|p required Hp _ IH]; [reflexivity|].
  cbn. rewrite (bool_decide_eq_true_2 _ Hp). exact IH.
Qed.

Lemma check_permissions_first_missing (perms : list string)
    (pre : list Permission.t) (p : Permission.t) (post : list Permission.t) :
  Forall (fun q => Permission.value q ∈ perms) pre ->
  Permission.value p ∉ perms ->
  check_permissions perms (pre ++ p :: post) = inl (missing_permission p).
Proof.
  intros Hpre Hp. induction Hpre as [|q pre Hq _ IH]; cbn.
  - rewrite (bool_decide_eq_false_2 _ Hp). reflexivity.
  - rewrite (bool_decide_eq_true_2 _ Hq). exact IH.
Qed.

Lemma check_permissions_cases (perms : list string) (required : list Permission.t) :
  (Forall (fun p => Permission.value p ∈ perms) required
   /\ check_permissions perms required = inr tt)
  \/ (exists pre p post,
        required = pre ++ p :: post
        /\ Forall (fun q => Permission.value q ∈ perms) pre
        /\ (Permission.value p ∉ perms)
        /\ check_permissions perms required = inl (missing_permission p)).
Proof.
  induction required as [|p required IH].
  - left. split; [constructor | reflexivity].
  - destruct (decide (Permission.value p ∈ perms)) as [Hp|Hp].
    + destruct IH as [[Hall Hok]|(pre & q & post & -> & Hpre & Hq & Hfail)].
      * left. split; [constructor; assumption|].
        cbn. rewrite (bool_decide_eq_true_2 _ Hp). exact Hok.
      * right. exists (p :: pre), q, post. repeat split; try assumption.
        { constructor; assumption. }
        cbn. rewrite (bool_decide_eq_true_2 _ Hp). exact Hfail.
    + right. exists [], p, required. repeat split; try assumption.
      { constructor. }
      cbn. rewrite (bool_decide_eq_false_2 _ Hp). reflexivity.
Qed.

(** What the wrapper does once a user is present: the role's lowercased
    name selects the permission list, and a name that is no key of the
    table (an absent role and the empty name included) is an invalid
    role. *)
Lemma has_permission_role {A} (required : list Permission.t)
    (func : User.t -> Exn + A) (user : User.t) :
  has_permission required func (Some user)
  = match user_role user ≫= (fun n => ROLE_PERMISSIONS !! n) with
    | None => inl (HTTPException 403 "Invalid role")
    | Some perms =>
        match check_permissions perms required with
        | inl e => inl e
        | inr _ => func user
        end
    end.
Proof.
  unfold has_permission. destruct (user_role user) as [[|c n]|]; reflexivity.
Qed.

Lemma staff_row : ROLE_PERMISSIONS !! "staff" = Some staff_permissions.
Proof. vm_compute. reflexivity. Qed.

Lemma staff_lacks_approve_loans :
  Permission.value Permission.APPROVE_LOANS ∉ staff_permissions.
Proof.
  intros H. apply (bool_decide_eq_true_2 _) in H. vm_compute in H. discriminate H.
Qed.

Lemma admin_row :
  ROLE_PERMISSIONS !! "admin" = Some (map Permission.value Permission.members).
Proof. vm_compute. reflexivity. Qed.

(** C7, as the code has it: without a user the check answers 401; with a
    user whose lowercased role name is no key of [ROLE_PERMISSIONS] it
    answers 403 "Invalid role"; otherwise it answers 403 naming the first
    required permission that the role's list lacks, and calls the handler
    when none is lacking.  The list of [staff] lacks [approve_loans], so a
    check that requires it always answers 403 for a staff user, naming the
    first required permission staff lacks: that is [approve_loans] when
    staff holds the permissions required before it.  The list of [admin]
    holds every permission. *)
Theorem has_permission_spec {A} (required : list Permission.t)
    (func : User.t -> Exn + A) (current_user : option User.t) :
  match current_user with
  | None =>
      has_permission required func current_user
      = inl (HTTPException 401 "Not authenticated")
  | Some user =>
      match user_role user ≫= (fun n => ROLE_PERMISSIONS !! n) with
      | None =>
          has_permission required func current_user
          = inl (HTTPException 403 "Invalid role")
      | Some perms =>
          (Forall (fun p => Permission.value p ∈ perms) required
           /\ has_permission required func current_user = func user)
          \/ (exists pre p post,
                required = pre ++ p :: post
                /\ Forall (fun q => Permission.value q ∈ perms) pre
                /\ (Permission.value p ∉ perms)
                /\ has_permission required func current_user
                   = inl (HTTPException 403
                            ("Missing required permission: " +:+ Permission.value p)))
      end
      /\ (user_role user = Some "staff" ->
          Permission.APPROVE_LOANS ∈ required ->
          (exists p,
             p ∈ required /\ (Permission.value p ∉ staff_permissions)
             /\ has_permission required func current_user
                = inl (HTTPException 403
                         ("Missing required permission: " +:+ Permission.value p)))
          /\ forall pre post,
               required = pre ++ Permission.APPROVE_LOANS :: post ->
               Forall (fun q => Permission.value q ∈ staff_permissions) pre ->
               has_permission required func current_user
               = inl (HTTPException 403 "Missing required permission: approve_loans"))
  end
  /\ ROLE_PERMISSIONS !! "staff" = Some staff_permissions
  /\ ("approve_loans" ∉ staff_permissions)
  /\ exists admin_permissions,
       ROLE_PERMISSIONS !! "admin" = Some admin_permissions
       /\ forall p : Permission.t, Permission.value p ∈ admin_permissions.
Proof.
  split; [|split; [exact staff_row | split; [exact staff_lacks_approve_loans|]]].
  - destruct current_user as [user|]; [|reflexivity].
    rewrite has_permission_role. split.
    + destruct (user_role user ≫= (fun n => ROLE_PERMISSIONS !! n)) as [perms|]; [|reflexivity].
      destruct (check_permissions_cases perms required)
        as [[Hall Hok]|(pre & p & post & Heq & Hpre & Hp & Hfail)].
      * left. rewrite Hok. split; [assumption | reflexivity].
      * right. exists pre, p, post. rewrite Hfail. repeat split; assumption.
    + intros Hrole Hreq. rewrite Hrole. cbn [mbind option_bind].
      rewrite staff_row. split.
      * destruct (check_permissions_cases staff_permissions required)
          as [[Hall Hok]|(pre & p & post & Heq & Hpre & Hp & Hfail)].
        { exfalso. apply staff_lacks_approve_loans.
          rewrite Forall_forall in Hall. exact (Hall _ Hreq). }
        exists p. rewrite Hfail. repeat split; [|assumption].
        rewrite Heq. apply elem_of_app. right. apply elem_of_cons. left. reflexivity.
      * intros pre post -> Hpre.
        rewrite (check_permissions_first_missing _ _ _ _ Hpre staff_lacks_approve_loans).
        reflexivity.
  - eexists. split; [exact admin_row|].
    intros p. apply list_elem_of_fmap. exists p. split; [reflexivity|].
    destruct p; apply (bool_decide_eq_true_1 _); vm_compute; reflexivity.
Qed.

(** ** The properties on the sample data *)

Ltac by_decide := apply (bool_decide_eq_true_1 _); vm_compute; reflexivity.

(** C1 at the sample loan of 1000 at 5 percent: the payment of 1050 that
    would complete it raises [TypeError]; no row is appended, the loan
    is still ACTIVE and the ring still PAWNED. *)
Lemma add_payment_raises_witness :
  let db := Sample.db LoanStatusEnum.ACTIVE in
  let answer := run (add_payment 115 120 1 (Sample.pay 1050)) db in
  answer = (inl TypeError, db)
  /\ payments (snd answer) = []
  /\ Loan.status <$> loans (snd answer) !! 1 = Some LoanStatusEnum.ACTIVE
  /\ Item.status <$> items (snd answer) !! 7 = Some ItemStatus.PAWNED.
Proof.
  intros db answer.
  destruct (add_payment_raises 115 120 db 1
              (Loan.set_status LoanStatusEnum.ACTIVE Sample.loan) (Sample.pay 1050))
    as [_ Hrun].
  - vm_compute. reflexivity.
  - by_decide.
  - subst answer. rewrite Hrun. split; [reflexivity|]. vm_compute. repeat split.
Defined.

(** C3 at the sample loan: extending the ACTIVE loan by 10 days stores
    due date 140, term 40 and status EXTENDED, and [extension_count] is
    still 0. *)
Lemma extend_loan_skips_extension_count :
  let db' := snd (run (extend_loan Sample.str_date 115 120 1
                         (LoanExtend.mk 10 None None))
                      (Sample.db LoanStatusEnum.ACTIVE)) in
  Loan.due_date <$> loans db' !! 1 = Some 140
  /\ Loan.term_days <$> loans db' !! 1 = Some 40
  /\ Loan.status <$> loans db' !! 1 = Some LoanStatusEnum.EXTENDED
  /\ Loan.extension_count <$> loans (Sample.db LoanStatusEnum.ACTIVE) !! 1 = Some 0
  /\ Loan.extension_count <$> loans db' !! 1 = Some 0.
Proof. vm_compute. repeat split. Qed.

Lemma lifecycle_refuses_terminal_witness :
  let db := Sample.db LoanStatusEnum.COMPLETED in
  add_payment 115 120 1 (Sample.pay 50) (open db)
  = (inl (HTTPException 400 "Cannot add payment to loan with status: completed"), open db)
  /\ snd (run (default_loan Sample.str_date 115 120 1 (LoanDefault.mk 115 None None)) db) = db.
Proof.
  intros db.
  destruct (lifecycle_refuses_terminal Sample.str_date Sample.str_float 115 120 db 1
              (Loan.set_status LoanStatusEnum.COMPLETED Sample.loan)
              (Sample.pay 50) (LoanExtend.mk 10 None None)
              (LoanRedeem.mk (Sample.pay 50) None) (LoanDefault.mk 115 None None))
    as (Hadd & _ & _ & _ & _ & _ & _ & Hdefault).
  - vm_compute. reflexivity.
  - by_decide.
  - split; [exact Hadd | exact Hdefault].
Defined.

(** C5 fails twice.  The update of the CANCELLED sample loan is stored:
    the loan is ACTIVE again.  And the deletion of the ring rewrites the
    COMPLETED sample loan, whose [item_id] is gone afterwards. *)
Lemma terminal_loans_rewritten :
  let loan_in :=
    LoanUpdate.mk None None None None None (Some LoanStatusEnum.ACTIVE) None None in
  let cancelled := Sample.db LoanStatusEnum.CANCELLED in
  let completed := Sample.db LoanStatusEnum.COMPLETED in
  (Loan.status <$> loans cancelled !! 1 = Some LoanStatusEnum.CANCELLED
   /\ Loan.status <$> loans (snd (run (update_loan 115 120 1 loan_in) cancelled)) !! 1
      = Some LoanStatusEnum.ACTIVE)
  /\ (Loan.status <$> loans completed !! 1 = Some LoanStatusEnum.COMPLETED
      /\ Loan.item_id <$> loans completed !! 1 = Some (Some 7)
      /\ Loan.item_id <$> loans (snd (run (delete_item 125 7) completed)) !! 1 = Some None
      /\ Loan.updated_at <$> loans completed !! 1 = Some None
      /\ Loan.updated_at <$> loans (snd (run (delete_item 125 7) completed)) !! 1
         = Some (Some 125)).
Proof. vm_compute. repeat split. Qed.

Lemma terminal_statuses_spec_witness :
  let db := Sample.db LoanStatusEnum.DEFAULTED in
  refused (update_loan 115 120 1 (LoanUpdate.mk None None None None None None None (Some None)))
    db (HTTPException 400 "Cannot update loan with status: defaulted")
  /\ refused (add_payment 115 120 1 (Sample.pay 50)) db
       (HTTPException 400 "Cannot add payment to loan with status: defaulted")
  /\ Loan.item_id <$> loans (snd (run (delete_item 125 7) db)) !! 1 = Some None.
Proof.
  intros db.
  destruct (terminal_statuses_spec Sample.str_date Sample.str_float 115 120 125 db 1
              (Loan.set_status LoanStatusEnum.DEFAULTED Sample.loan)
              (LoanUpdate.mk None None None None None None None (Some None))
              (Sample.pay 50) (LoanExtend.mk 10 None None)
              (LoanRedeem.mk (Sample.pay 50) None) (LoanDefault.mk 115 None None))
    as (Hlife & Hupd & _ & Hitem).
  - vm_compute. reflexivity.
  - split; [apply Hupd; by_decide|]. split; [apply Hlife; by_decide|].
    rewrite (Hitem 7 Sample.ring); [reflexivity | reflexivity | vm_compute; reflexivity | |].
    + intros H. apply (bool_decide_eq_true_2 _) in H. vm_compute in H. discriminate H.
    + intros k l Hl _. destruct (decide (k = 1)) as [->|Hk]; [reflexivity|].
      unfold db, Sample.db in Hl. cbn [loans] in Hl.
      rewrite lookup_singleton_ne in Hl by congruence. discriminate Hl.
Defined.

(** C6 at the OVERDUE sample loan, whose balance would be 1050: the
    payment of 1049 is not answered with the 400 error, and the payment
    of 1050 is not recorded; both raise [AttributeError] and leave the
    database as it was. *)
Lemma redeem_loan_raises_witness :
  let db := Sample.db LoanStatusEnum.OVERDUE in
  run (redeem_loan Sample.str_date Sample.str_float 135 140 1
         (LoanRedeem.mk (Sample.pay 1049) None)) db = (inl AttributeError, db)
  /\ run (redeem_loan Sample.str_date Sample.str_float 135 140 1
            (LoanRedeem.mk (Sample.pay 1050) None)) db = (inl AttributeError, db).
Proof.
  intros db. split.
  - destruct (redeem_loan_raises Sample.str_date Sample.str_float 135 140 db 1
                (Loan.set_status LoanStatusEnum.OVERDUE Sample.loan)
                (LoanRedeem.mk (Sample.pay 1049) None)) as [_ Hrun];
      [vm_compute; reflexivity | by_decide | exact Hrun].
  - destruct (redeem_loan_raises Sample.str_date Sample.str_float 135 140 db 1
                (Loan.set_status LoanStatusEnum.OVERDUE Sample.loan)
                (LoanRedeem.mk (Sample.pay 1050) None)) as [_ Hrun];
      [vm_compute; reflexivity | by_decide | exact Hrun].
Defined.

(** C7 fails where staff lacks an earlier required permission: the error
    names that one, not [approve_loans]. *)
Lemma staff_check_names_first_missing :
  let required := [Permission.MANAGE_USERS; Permission.APPROVE_LOANS] in
  Permission.APPROVE_LOANS ∈ required
  /\ has_permission required (fun _ => inr tt) (Some Sample.staff)
     = inl (HTTPException 403 "Missing required permission: manage_users")
  /\ has_permission required (fun _ => inr tt) (Some Sample.staff)
     <> inl (HTTPException 403 "Missing required permission: approve_loans").
Proof.
  intros required. split; [by_decide|]. split; [vm_compute; reflexivity|].
  vm_compute. intros H. discriminate H.
Qed.

(** A staff user is refused an operation gated by [approve_loans], which
    the error names; an admin passes the same gate. *)
Lemma has_permission_spec_witness :
  has_permission [Permission.VIEW_LOANS; Permission.APPROVE_LOANS]
    (fun _ => inr tt) (Some Sample.staff)
  = inl (HTTPException 403 "Missing required permission: approve_loans")
  /\ has_permission [Permission.VIEW_LOANS; Permission.APPROVE_LOANS]
       (fun u => inr (User.id u)) (Some Sample.admin)
     = inr 1.
Proof.
  split.
  - destruct (has_permission_spec [Permission.VIEW_LOANS; Permission.APPROVE_LOANS]
                (fun _ => @inr Exn unit tt) (Some Sample.staff))
      as [[_ Hstaff] _].
    destruct Hstaff as [_ Hnames]; [vm_compute; reflexivity | by_decide |].
    apply (Hnames [Permission.VIEW_LOANS] []); [reflexivity|].
    constructor; [by_decide | constructor].
  - destruct (has_permission_spec [Permission.VIEW_LOANS; Permission.APPROVE_LOANS]
                (fun u => @inr Exn Z (User.id u)) (Some Sample.admin))
      as [[Hcase _] (_ & _ & perms & Hrow & Hall)].
    change (user_role Sample.admin ≫= _) with (ROLE_PERMISSIONS !! "admin") in Hcase.
    rewrite Hrow in Hcase.
    destruct Hcase as [[_ Hok]|(pre & p & post & _ & _ & Hp & _)]; [exact Hok|].
    exfalso. exact (Hp (Hall p)).
Defined.



(** C9 fails on [updated_at]: the soft delete also stamps the row. *)
Lemma delete_customer_stamps_updated_at :
  let db := Sample.db LoanStatusEnum.COMPLETED in
  exists customer' db',
    run (delete_customer 120 3) db = (inr customer', db')
    /\ customers db' !! 3 = Some customer'
    /\ Customer.is_active customer' = false
    /\ Customer.updated_at Sample.customer = None
    /\ Customer.updated_at customer' = Some 120
    /\ customer' <> Customer.set_is_active false Sample.customer.
Proof.
  intros db. eexists _, _. vm_compute. repeat split. intros H. discriminate H.
Qed.

Lemma delete_customer_spec_witness :
  (exists n,
     0 < n
     /\ refused (delete_customer 120 3) (Sample.db LoanStatusEnum.OVERDUE)
          (HTTPException 400
             ("Cannot delete customer with " +:+ str_int n +:+ " active loans")))
  /\ is_Some (customers (snd (run (delete_customer 120 3) (Sample.db LoanStatusEnum.EXTENDED)))
              !! 3).
Proof.
  split.
  - destruct (delete_customer_spec 120 (Sample.db LoanStatusEnum.OVERDUE) 3 Sample.customer)
      as [Hblocked _]; [vm_compute; reflexivity|].
    apply Hblocked. exists 1, (Loan.set_status LoanStatusEnum.OVERDUE Sample.loan).
    split; [vm_compute; reflexivity|]. split; [reflexivity | by_decide].
  - destruct (delete_customer_spec 120 (Sample.db LoanStatusEnum.EXTENDED) 3 Sample.customer)
      as (_ & _ & Hkept); [vm_compute; reflexivity|]. exact Hkept.
Defined.


(** ** Further properties of the permission check *)

Lemma check_permissions_ok_iff (perms : list string) (required : list Permission.t) :
  check_permissions perms required = inr tt
  <-> Forall (fun p => Permission.value p ∈ perms) required.
Proof.
  split; [|apply check_permissions_held].
  intros Hok. destruct (check_permissions_cases perms required)
    as [[Hall _]|(pre & p & post & _ & _ & _ & Hfail)]; [exact Hall|].
  rewrite Hok in Hfail. discriminate Hfail.
Qed.

Lemma check_permissions_app (perms : list string) (r1 r2 : list Permission.t) :
  check_permissions perms (r1 ++ r2)
  = match check_permissions perms r1 with
    | inl e => inl e
    | inr _ => check_permissions perms r2
    end.
Proof.
  induction r1 as [|p r1 IH]; [reflexivity|].
  cbn. destruct (bool_decide (Permission.value p ∈ perms)); [exact IH | reflexivity].
Qed.

Lemma allowed_role (required : list Permission.t) (user : User.t) :
  allowed required (Some user) = true
  <-> exists perms : list string,
        user_role user ≫= (fun n => ROLE_PERMISSIONS !! n) = Some perms
        /\ Forall (fun p => Permission.value p ∈ perms) required.
Proof.
  unfold allowed. rewrite has_permission_role.
  destruct (user_role user ≫= (fun n => ROLE_PERMISSIONS !! n)) as [perms|].
  - destruct (check_permissions perms required) as [e|[]] eqn:Hc.
    + split; [intros H; discriminate H|].
      intros (perms' & [= <-] & Hall). apply check_permissions_ok_iff in Hall. congruence.
    + split; [|reflexivity]. intros _. exists perms. split; [reflexivity|].
      apply check_permissions_ok_iff. exact Hc.
  - split; [intros H; discriminate H | intros (perms & H & _); discriminate H].
Qed.

(** X24: the check lets a request through exactly when a user is present,
    the lowercased name of the role is a key of the table and the list of
    the role holds every required permission; so whether it passes does
    not depend on the order of the required permissions nor on their
    repetition, and with nothing required a valid role is still needed. *)
Theorem allowed_iff (required : list Permission.t) (current_user : option User.t) :
  (allowed required current_user = true
   <-> exists (user : User.t) (perms : list string),
         current_user = Some user
         /\ user_role user ≫= (fun n => ROLE_PERMISSIONS !! n) = Some perms
         /\ forall p : Permission.t, p ∈ required -> Permission.value p ∈ perms)
  /\ (forall required' : list Permission.t,
        (forall p : Permission.t, p ∈ required <-> p ∈ required') ->
        allowed required current_user = allowed required' current_user)
  /\ (allowed [] current_user = true
      <-> exists user : User.t,
            current_user = Some user
            /\ is_Some (user_role user ≫= (fun n => ROLE_PERMISSIONS !! n))).
Proof.
  assert (Hiff : forall required,
            allowed required current_user = true
            <-> exists (user : User.t) (perms : list string),
                  current_user = Some user
                  /\ user_role user ≫= (fun n => ROLE_PERMISSIONS !! n) = Some perms
                  /\ forall p : Permission.t, p ∈ required -> Permission.value p ∈ perms).
  { intros r. destruct current_user as [user|].
    - rewrite allowed_role. split.
      + intros (perms & Hrole & Hall). exists user, perms.
        rewrite Forall_forall in Hall. auto.
      + intros (u & perms & [= <-] & Hrole & Hall). exists perms.
        rewrite Forall_forall. auto.
    - split; [intros H; discriminate H | intros (u & _ & H & _); discriminate H]. }
  split; [apply Hiff|]. split.
  - intros required' Hsame.
    destruct (allowed required current_user) eqn:H1;
      destruct (allowed required' current_user) eqn:H2; try reflexivity; exfalso.
    + apply Hiff in H1 as (u & perms & Hu & Hrole & Hall).
      assert (H : allowed required' current_user = true).
      { apply Hiff. exists u, perms. repeat split; try assumption.
        intros p Hp. apply Hall, Hsame, Hp. }
      congruence.
    + apply Hiff in H2 as (u & perms & Hu & Hrole & Hall).
      assert (H : allowed required current_user = true).
      { apply Hiff. exists u, perms. repeat split; try assumption.
        intros p Hp. apply Hall, Hsame, Hp. }
      congruence.
  - rewrite Hiff. split.
    + intros (u & perms & Hu & Hrole & _). exists u. rewrite Hrole. eauto.
    + intros (u & Hu & [perms Hrole]). exists u, perms. repeat split; try assumption.
      intros p Hp. apply elem_of_nil in Hp. contradiction.
Qed.

(** X25: two stacked checks are one check of the two lists in a row: a
    handler wrapped to require [r2] and wrapped again to require [r1]
    answers every request as the handler wrapped once to require
    [r1 ++ r2], the error included. *)
Theorem has_permission_stacked {A} (r1 r2 : list Permission.t)
    (func : User.t -> Exn + A) (current_user : option User.t) :
  has_permission r1 (fun user => has_permission r2 func (Some user)) current_user
  = has_permission (r1 ++ r2) func current_user.
Proof.
  destruct current_user as [user|]; [|reflexivity].
  rewrite !has_permission_role.
  destruct (user_role user ≫= (fun n => ROLE_PERMISSIONS !! n)) as [perms|] eqn:Hrole;
    [|reflexivity].
  rewrite check_permissions_app.
  destruct (check_permissions perms r1) as [e|[]]; [reflexivity|].
  reflexivity.
Qed.

Lemma manager_row :
  exists perms : list string,
    ROLE_PERMISSIONS !! "manager" = Some perms
    /\ Forall (fun s => s ∈ perms) staff_permissions.
Proof.
  eexists. split; [vm_compute; reflexivity|].
  apply (bool_decide_eq_true_1 _). vm_compute. reflexivity.
Qed.

(** X26: the three roles are nested: every check a staff user passes, a
    manager passes, and an admin passes every check. *)
Theorem role_hierarchy (required : list Permission.t) (staff manager admin : User.t) :
  user_role staff = Some "staff" ->
  user_role manager = Some "manager" ->
  user_role admin = Some "admin" ->
  (allowed required (Some staff) = true -> allowed required (Some manager) = true)
  /\ allowed required (Some admin) = true.
Proof.
  intros Hs Hm Ha. split.
  - intros Hstaff. apply allowed_role in Hstaff as (perms & Hrole & Hall).
    rewrite Hs in Hrole. cbn [mbind option_bind] in Hrole. rewrite staff_row in Hrole.
    injection Hrole as <-.
    destruct manager_row as (mperms & Hrow & Hsub).
    apply allowed_role. exists mperms. rewrite Hm. split; [exact Hrow|].
    rewrite Forall_forall in Hall. rewrite Forall_forall in Hsub.
    rewrite Forall_forall. intros p Hp. apply Hsub, Hall, Hp.
  - apply allowed_role. exists (map Permission.value Permission.members).
    rewrite Ha. split; [exact admin_row|].
    rewrite Forall_forall. intros p _. apply list_elem_of_fmap. exists p.
    split; [reflexivity|].
    destruct p; apply (bool_decide_eq_true_1 _); vm_compute; reflexivity.
Qed.

(** X27: the permissions that the login and the profile list for a user
    are the ones the check enforces: a check of a single permission
    passes exactly when the user has a role and the permission is in the
    list shown for it. *)
Theorem listed_permissions_agree (user : User.t) (p : Permission.t) :
  allowed [p] (Some user) = true
  <-> exists l : list string,
        listed_permissions user = Some l /\ Permission.value p ∈ l.
Proof.
  rewrite allowed_role. unfold listed_permissions, user_role.
  destruct (User.role user) as [r|];
    cbn [fmap option_fmap option_map mbind option_bind].
  - generalize (ROLE_PERMISSIONS !! lower (Role.name r)).
    intros [perms|]; cbn [default]; split.
    + intros (perms' & [= <-] & Hall). exists perms. split; [reflexivity|].
      apply Forall_cons in Hall as [Hp _]. exact Hp.
    + intros (l & [= <-] & Hp). exists perms. split; [reflexivity|].
      constructor; [exact Hp | constructor].
    + intros (perms' & H & _). discriminate H.
    + intros (l & [= <-] & Hp). apply elem_of_nil in Hp. contradiction.
  - split; [intros (perms & H & _) | intros (l & H & _)]; discriminate H.
Qed.


(** ** Instances on the sample data *)

(** No loan has the key 2: reading it and paying on it answer 404. *)
Lemma loan_not_found_witness :
  let db := Sample.db LoanStatusEnum.ACTIVE in
  refused (read_loan 115 2) db (HTTPException 404 "Loan not found")
  /\ refused (add_payment 115 120 2 (Sample.pay 50)) db (HTTPException 404 "Loan not found").
Proof.
  intros db.
  destruct (loan_not_found Sample.str_date Sample.str_float 115 120 db 2
              (LoanUpdate.mk None None None None None None None None) (Sample.pay 50)
              (LoanExtend.mk 10 None None) (LoanRedeem.mk (Sample.pay 50) None)
              (LoanDefault.mk 140 None None))
    as (Hread & _ & Hpay & _); [vm_compute; reflexivity|].
  split; assumption.
Defined.

(** The sample loan starts on day 100 for 30 days and is due on day 130;
    extended by ten days it is due at start plus term again. *)
Lemma extend_loan_keeps_due_date_witness :
  exists loan',
    loans (run (extend_loan Sample.str_date 115 120 1 (LoanExtend.mk 10 None None))
               (Sample.db LoanStatusEnum.ACTIVE)).2 !! 1 = Some loan'
    /\ Loan.start_date loan' = 100
    /\ Loan.due_date loan'
       = calculate_due_date (Loan.start_date loan') (Loan.term_days loan').
Proof.
  apply (extend_loan_keeps_due_date Sample.str_date 115 120
           (Sample.db LoanStatusEnum.ACTIVE) 1
           (Loan.set_status LoanStatusEnum.ACTIVE Sample.loan)).
  - vm_compute. reflexivity.
  - by_decide.
  - vm_compute. reflexivity.
Defined.

(** The extension of the active sample loan is a move of the table. *)
Lemma serve_transition_witness :
  let db := Sample.db LoanStatusEnum.ACTIVE in
  let req := PutExtend 1 (LoanExtend.mk 10 None None) in
  let loan' :=
    default Sample.loan
      (loans (serve Sample.str_date Sample.str_float 115 120 req db) !! 1) in
  loan' = Loan.set_status LoanStatusEnum.ACTIVE Sample.loan
  \/ transition req LoanStatusEnum.ACTIVE (Loan.status loan').
Proof.
  intros db req loan'.
  apply (serve_transition Sample.str_date Sample.str_float 115 120 req db
           (Loan.set_status LoanStatusEnum.ACTIVE Sample.loan) loan').
  - vm_compute. reflexivity.
  - vm_compute. reflexivity.
Defined.

(** A payment, an extension and an update back to ACTIVE leave the
    completed loan as it was. *)
Lemma closed_loan_stays_closed_witness :
  let reqs :=
    [PostPayment 1 (Sample.pay 50);
     PutExtend 1 (LoanExtend.mk 10 None None);
     PutLoan 1 (LoanUpdate.mk None None None None None
                  (Some LoanStatusEnum.ACTIVE) None None)] in
  loans (foldl (fun db0 req => serve Sample.str_date Sample.str_float 115 120 req db0)
               (Sample.db LoanStatusEnum.COMPLETED) reqs) !! 1
  = Some (Loan.set_status LoanStatusEnum.COMPLETED Sample.loan).
Proof.
  intros reqs.
  apply (closed_loan_stays_closed Sample.str_date Sample.str_float 115 120 reqs
           (Sample.db LoanStatusEnum.COMPLETED) 1
           (Loan.set_status LoanStatusEnum.COMPLETED Sample.loan)).
  - vm_compute. reflexivity.
  - by_decide.
Defined.

(** The sample customer, whose only loan is completed, is deleted and
    then reactivated by an update. *)
Lemma delete_customer_undone_witness :
  let db := Sample.db LoanStatusEnum.COMPLETED in
  let reactivate := CustomerUpdate.mk None None None None None None (Some true) in
  let deleted := (run (delete_customer 120 3) db).2 in
  let restored := (run (update_customer 120 3 reactivate) deleted).2 in
  Customer.is_active <$> customers deleted !! 3 = Some false
  /\ Customer.is_active <$> customers restored !! 3 = Some true
  /\ loans restored = loans db.
Proof.
  intros db reactivate deleted restored.
  destruct (delete_customer_undone 120 db 3 Sample.customer)
    as (Hoff & Hcust & Hloans & _).
  - vm_compute. reflexivity.
  - reflexivity.
  - intros k l Hl _.
    destruct (decide (k = 1)) as [->|Hk].
    + vm_compute in Hl. injection Hl as <-. intros H.
      apply (bool_decide_eq_true_2 _) in H. vm_compute in H. discriminate H.
    + unfold db, Sample.db in Hl. cbn [loans] in Hl.
      rewrite lookup_singleton_ne in Hl by congruence. discriminate Hl.
  - split; [exact Hoff|]. split; [|exact Hloans].
    unfold restored, deleted, reactivate. rewrite Hcust, lookup_insert_eq. reflexivity.
Defined.

(** A manager and an admin pass the check for viewing and creating loans
    that the staff user passes. *)
Lemma role_hierarchy_witness :
  let required := [Permission.VIEW_LOANS; Permission.CREATE_LOANS] in
  allowed required (Some (User.mk 3 (Some (Role.mk "Manager")))) = true
  /\ allowed required (Some Sample.admin) = true.
Proof.
  intros required.
  destruct (role_hierarchy required Sample.staff (User.mk 3 (Some (Role.mk "Manager")))
              Sample.admin) as [Hmanager Hadmin].
  - vm_compute. reflexivity.
  - vm_compute. reflexivity.
  - vm_compute. reflexivity.
  - split; [apply Hmanager; vm_compute; reflexivity | exact Hadmin].
Defined.




(** The update of the sample loan to 3 percent is stored and the
    request fails; with a [loan_amount] in it, it fails with
    [TypeError] and stores the same row. *)
Lemma update_loan_commits_then_raises_witness :
  let db := Sample.db LoanStatusEnum.ACTIVE in
  let rate := LoanUpdate.mk None (Some 3%Q) None None None None None None in
  let rate_and_amount := LoanUpdate.mk (Some 2000%Q) (Some 3%Q) None None None None None None in
  (exists db',
     run (update_loan 115 120 1 rate) db = (inl AttributeError, db')
     /\ Loan.interest_rate <$> loans db' !! 1 = Some 3%Q
     /\ Loan.principal_amount <$> loans db' !! 1 = Some 1000%Q)
  /\ (exists db',
        run (update_loan 115 120 1 rate_and_amount) db = (inl TypeError, db')
        /\ Loan.principal_amount <$> loans db' !! 1 = Some 1000%Q).
Proof.
  intros db rate rate_and_amount. split.
  - destruct (update_loan_commits_then_raises 115 120 db 1
                (Loan.set_status LoanStatusEnum.ACTIVE Sample.loan) rate)
      as ((e & Hrun & He) & Hloans & _).
    + vm_compute. reflexivity.
    + intros H. apply (bool_decide_eq_true_2 _) in H. vm_compute in H. discriminate H.
    + eexists. split; [rewrite Hrun, He; reflexivity|]. rewrite Hloans.
      rewrite lookup_insert_eq. split; reflexivity.
  - destruct (update_loan_commits_then_raises 115 120 db 1
                (Loan.set_status LoanStatusEnum.ACTIVE Sample.loan) rate_and_amount)
      as ((e & Hrun & He) & Hloans & _).
    + vm_compute. reflexivity.
    + intros H. apply (bool_decide_eq_true_2 _) in H. vm_compute in H. discriminate H.
    + eexists. split; [rewrite Hrun, He; reflexivity|]. rewrite Hloans.
      rewrite lookup_insert_eq. reflexivity.
Defined.

(** The sample loan, whose customer and ring are stored, cannot be read. *)
Lemma read_loan_spec_witness :
  refused (read_loan 115 1) (Sample.db LoanStatusEnum.ACTIVE) AttributeError.
Proof.
  destruct (read_loan_spec 115 (Sample.db LoanStatusEnum.ACTIVE) 1
              (Loan.set_status LoanStatusEnum.ACTIVE Sample.loan)) as [_ Hraise].
  - vm_compute. reflexivity.
  - apply (Hraise Sample.customer 7 Sample.ring); vm_compute; reflexivity.
Defined.

(** Once the ring of the completed loan is deleted, the loan is still
    stored, without the ring, and answers 404. *)
Lemma deleted_item_hides_loan_witness :
  let db' := (run (delete_item 125 7) (Sample.db LoanStatusEnum.COMPLETED)).2 in
  Loan.item_id <$> loans db' !! 1 = Some None
  /\ refused (read_loan 115 1) db'
       (HTTPException 404 "Related customer or item not found").
Proof.
  intros db'.
  destruct (deleted_item_hides_loan 115 125 (Sample.db LoanStatusEnum.COMPLETED) 1
              (Loan.set_status LoanStatusEnum.COMPLETED Sample.loan) 7 Sample.ring)
    as (Hrow & H404).
  - vm_compute. reflexivity.
  - reflexivity.
  - vm_compute. reflexivity.
  - intros H. apply (bool_decide_eq_true_2 _) in H. vm_compute in H. discriminate H.
  - intros k l Hl _. destruct (decide (k = 1)) as [->|Hk]; [reflexivity|].
    unfold Sample.db in Hl. cbn [loans] in Hl.
    rewrite lookup_singleton_ne in Hl by congruence. discriminate Hl.
  - split; [|exact H404]. fold db' in Hrow. rewrite Hrow. reflexivity.
Defined.
